(** * document_ai_agents.document_parsing_agent: layout extraction pipeline

    A shallow embedding of [DocumentParsingAgent] (get_images,
    find_layout_items and the driver under [__main__]) together with the
    Python library behaviour the two methods rely on: [json.loads],
    subscripting and iteration of the decoded values, and the validation
    of [Document.page_content].

    Conventions.
    - A Python [str] is a Rocq [string] holding its UTF-8 bytes.
    - Python objects that the code shares by reference (the state object
      and the lists it points to) live in a store indexed by locations.
    - The file system, the PDF rasterizer, the PNG encoder and the
      generative model are the fields of a [World]. *)

From stdpp Require Import gmap list strings sorting.
From Stdlib Require Import Ascii NArith.

Set Default Proof Using "Type".

(** ** Exceptions *)

(** The exceptions the two methods can raise or let through. *)
Inductive exn : Type :=
  | AssertionError (msg : string)   (* a failed [assert] of get_images *)
  | RasterizerError                 (* raised inside extract_images_from_pdf *)
  | ModelError                      (* raised by generate_content or by result.text *)
  | JSONDecodeError                 (* json.loads on text that is not JSON *)
  | KeyError (key : string)         (* dict subscript with an absent key *)
  | TypeError                       (* subscript or iteration of the wrong type *)
  | ValidationError                 (* Document(page_content=...) with a non-str *)
  | AttributeError.                 (* dereference of something that is not the expected object *)

Inductive result (A : Type) : Type :=
  | Ok (x : A)
  | Err (e : exn).
Arguments Ok {A} x.
Arguments Err {A} e.

Definition rbind {A B} (r : result A) (k : A → result B) : result B :=
  match r with
  | Ok x => k x
  | Err e => Err e
  end.

(** [[f x for x in xs]]: elements are built left to right and the first
    exception ends the comprehension. *)
Fixpoint rmap {A B} (f : A → result B) (xs : list A) : result (list B) :=
  match xs with
  | [] => Ok []
  | x :: xs' =>
      rbind (f x) (λ y, rbind (rmap f xs') (λ ys, Ok (y :: ys)))
  end.

(** The error taxonomy of the specification (section 7), as a
    classification of the Python exceptions. *)
Inductive error_class : Type := InputError | TransportError | SchemaViolationError | InternalError.

Definition class_of (e : exn) : error_class :=
  match e with
  | AssertionError _ | RasterizerError => InputError
  | ModelError => TransportError
  | JSONDecodeError | KeyError _ | TypeError | ValidationError => SchemaViolationError
  | AttributeError => InternalError
  end.

(** ** JSON values and [json.loads] *)

Module Json.

(** What [json.loads] returns: None, bool, int/float, str, list, dict.
    A number keeps its literal (the pipeline never computes with one); a
    dict is an association list in insertion order with unique keys. *)
#[warnings="-register-all"]
Inductive json : Type :=
  | JNull
  | JBool (b : bool)
  | JNumber (literal : string)
  | JString (s : string)
  | JArray (items : list json)
  | JObject (members : list (string * json)).

(** [d[k] = v] on a dict: an existing key keeps its position. *)
Fixpoint dict_set (k : string) (v : json) (d : list (string * json)) : list (string * json) :=
  match d with
  | [] => [(k, v)]
  | (k', v') :: d' =>
      if String.eqb k k' then (k, v) :: d' else (k', v') :: dict_set k v d'
  end.

Fixpoint dict_get (k : string) (d : list (string * json)) : option json :=
  match d with
  | [] => None
  | (k', v) :: d' => if String.eqb k k' then Some v else dict_get k d'
  end.

(** *** Lexer *)

Inductive token : Type :=
  | TLBrace | TRBrace | TLBracket | TRBracket | TColon | TComma
  | TStr (s : string)
  | TWord (w : string).   (* a literal or a number, checked by [value_of_word] *)

Definition is_ws (c : ascii) : bool :=
  match c with
  | " " | "009" | "010" | "013" => true
  | _ => false
  end%char.

Definition is_digit (c : ascii) : bool :=
  let n := Ascii.N_of_ascii c in ((48 <=? n) && (n <=? 57))%N.

Definition is_alpha (c : ascii) : bool :=
  let n := Ascii.N_of_ascii c in
  (((65 <=? n) && (n <=? 90)) || ((97 <=? n) && (n <=? 122)))%N.

(** Characters of literals and numbers. None of them may follow a
    complete value, so a maximal run is one token or an error. *)
Definition is_word (c : ascii) : bool :=
  is_digit c || is_alpha c ||
  match c with
  | "+" | "-" | "." => true
  | _ => false
  end%char.

Definition hex_digit (c : ascii) : option N :=
  let n := Ascii.N_of_ascii c in
  if is_digit c then Some (n - 48)%N
  else if ((97 <=? n) && (n <=? 102))%N then Some (n - 87)%N
  else if ((65 <=? n) && (n <=? 70))%N then Some (n - 55)%N
  else None.

Definition byte (n : N) : ascii := Ascii.ascii_of_N n.

(** UTF-8 bytes of a code point; a lone surrogate takes the three-byte
    form. *)
Definition utf8 (cp : N) : string :=
  if (cp <? 128)%N then String (byte cp) ""
  else if (cp <? 2048)%N then
    String (byte (192 + N.shiftr cp 6))
      (String (byte (128 + N.land cp 63)) "")
  else if (cp <? 65536)%N then
    String (byte (224 + N.shiftr cp 12))
      (String (byte (128 + N.land (N.shiftr cp 6) 63))
         (String (byte (128 + N.land cp 63)) ""))
  else
    String (byte (240 + N.shiftr cp 18))
      (String (byte (128 + N.land (N.shiftr cp 12) 63))
         (String (byte (128 + N.land (N.shiftr cp 6) 63))
            (String (byte (128 + N.land cp 63)) ""))).

Definition is_high_surrogate (cp : N) : bool := ((55296 <=? cp) && (cp <=? 56319))%N.
Definition is_low_surrogate (cp : N) : bool := ((56320 <=? cp) && (cp <=? 57343))%N.

(** A string literal under construction: the bytes so far and a high
    surrogate from a [\uXXXX] escape that waits for its low half. *)
Record partial_str : Type := PStr { ps_bytes : string; ps_high : option N }.

Definition flush (p : partial_str) : string :=
  match ps_high p with
  | Some h => ps_bytes p +:+ utf8 h
  | None => ps_bytes p
  end.

Definition push_byte (p : partial_str) (c : ascii) : partial_str :=
  PStr (flush p +:+ String c "") None.

Definition push_code_point (p : partial_str) (cp : N) : partial_str :=
  match ps_high p with
  | Some h =>
      if is_low_surrogate cp
      then PStr (ps_bytes p +:+ utf8 (65536 + (N.shiftl (h - 55296) 10 + (cp - 56320)))) None
      else if is_high_surrogate cp then PStr (ps_bytes p +:+ utf8 h) (Some cp)
      else PStr (ps_bytes p +:+ utf8 h +:+ utf8 cp) None
  | None =>
      if is_high_surrogate cp then PStr (ps_bytes p) (Some cp)
      else PStr (ps_bytes p +:+ utf8 cp) None
  end.

Inductive lex_state : Type :=
  | LDefault
  | LWord (w : string)
  | LStr (p : partial_str)
  | LEsc (p : partial_str)
  | LUni (p : partial_str) (missing : nat) (cp : N).

(** Tokens are accumulated in reverse. *)
Definition lex_default (toks : list token) (c : ascii) : option (lex_state * list token) :=
  if is_ws c then Some (LDefault, toks)
  else if is_word c then Some (LWord (String c ""), toks)
  else match c with
       | "{" => Some (LDefault, TLBrace :: toks)
       | "}" => Some (LDefault, TRBrace :: toks)
       | "[" => Some (LDefault, TLBracket :: toks)
       | "]" => Some (LDefault, TRBracket :: toks)
       | ":" => Some (LDefault, TColon :: toks)
       | "," => Some (LDefault, TComma :: toks)
       | "034" => Some (LStr (PStr "" None), toks)          (* double quote *)
       | _ => None
       end%char.

Definition lex_step (st : lex_state) (toks : list token) (c : ascii)
  : option (lex_state * list token) :=
  match st with
  | LDefault => lex_default toks c
  | LWord w =>
      if is_word c then Some (LWord (w +:+ String c ""), toks)
      else lex_default (TWord w :: toks) c
  | LStr p =>
      match c with
      | "034" => Some (LDefault, TStr (flush p) :: toks)   (* closing double quote *)
      | "\" => Some (LEsc p, toks)
      | _ =>
          (* strict mode: no control character inside a string *)
          if (Ascii.N_of_ascii c <? 32)%N then None else Some (LStr (push_byte p c), toks)
      end%char
  | LEsc p =>
      match c with
      | "034" | "\" | "/" => Some (LStr (push_byte p c), toks)
      | "b" => Some (LStr (push_byte p "008"), toks)
      | "f" => Some (LStr (push_byte p "012"), toks)
      | "n" => Some (LStr (push_byte p "010"), toks)
      | "r" => Some (LStr (push_byte p "013"), toks)
      | "t" => Some (LStr (push_byte p "009"), toks)
      | "u" => Some (LUni p 4 0%N, toks)
      | _ => None
      end%char
  | LUni p missing cp =>
      match hex_digit c, missing with
      | Some d, 1 => Some (LStr (push_code_point p (16 * cp + d)), toks)
      | Some d, S n => Some (LUni p n (16 * cp + d)%N, toks)
      | _, _ => None
      end
  end.

Fixpoint lex (s : string) (st : lex_state) (toks : list token) : option (list token) :=
  match s with
  | String c s' =>
      match lex_step st toks c with
      | Some (st', toks') => lex s' st' toks'
      | None => None
      end
  | EmptyString =>
      match st with
      | LDefault => Some (rev toks)
      | LWord w => Some (rev (TWord w :: toks))
      | _ => None          (* unterminated string *)
      end
  end.

(** *** Numbers and literals *)

Fixpoint skip_digits (cs : list ascii) : list ascii :=
  match cs with
  | c :: cs' => if is_digit c then skip_digits cs' else cs
  | [] => []
  end.

(** At least one digit, then the rest. *)
Definition digits1 (cs : list ascii) : option (list ascii) :=
  match cs with
  | c :: cs' => if is_digit c then Some (skip_digits cs') else None
  | [] => None
  end.

(** The number grammar of json.scanner, matched against the whole word:
    an optional minus sign; an integer part that is either 0 or a
    non-zero digit followed by digits; optionally a dot and one or more
    digits; optionally e or E, an optional sign and one or more digits. *)
Definition is_number (w : string) : bool :=
  let cs := String.list_ascii_of_string w in
  let cs := match cs with "-"%char :: cs' => cs' | _ => cs end in
  let after_int :=
    match cs with
    | "0"%char :: cs' => Some cs'
    | _ => digits1 cs
    end in
  let after_frac :=
    match after_int with
    | Some ("."%char :: cs') => digits1 cs'
    | r => r
    end in
  let after_exp :=
    match after_frac with
    | Some (e :: cs') =>
        if Ascii.eqb e "e" || Ascii.eqb e "E" then
          match cs' with
          | s :: cs'' =>
              if Ascii.eqb s "+" || Ascii.eqb s "-" then digits1 cs'' else digits1 cs'
          | [] => None
          end
        else after_frac
    | r => r
    end in
  match after_exp with
  | Some [] => true
  | _ => false
  end.

Definition value_of_word (w : string) : option json :=
  if String.eqb w "null" then Some JNull
  else if String.eqb w "true" then Some (JBool true)
  else if String.eqb w "false" then Some (JBool false)
  else if String.eqb w "NaN" || String.eqb w "Infinity" || String.eqb w "-Infinity"
  then Some (JNumber w)
  else if is_number w then Some (JNumber w)
  else None.

(** *** Parser *)

(** A container that waits for its next value. *)
Inductive frame : Type :=
  | FArray (done : list json)                           (* reversed *)
  | FObject (done : list (string * json)) (key : string).

Inductive parse_state : Type :=
  | SValue (stack : list frame)                          (* a value must follow *)
  | SArrayFirst (stack : list frame)                     (* after '[' *)
  | SArrayNext (done : list json) (stack : list frame)   (* after an item *)
  | SObjectFirst (stack : list frame)                    (* after '{' *)
  | SObjectKey (done : list (string * json)) (stack : list frame)             (* after ',' *)
  | SObjectColon (done : list (string * json)) (key : string) (stack : list frame)
  | SObjectNext (done : list (string * json)) (stack : list frame)            (* after a member *)
  | SDone (v : json).

(** A complete value goes into the innermost open container. *)
Definition plug (v : json) (stack : list frame) : parse_state :=
  match stack with
  | [] => SDone v
  | FArray done :: stack' => SArrayNext (v :: done) stack'
  | FObject done key :: stack' => SObjectNext (dict_set key v done) stack'
  end.

Definition start_value (t : token) (stack : list frame) : option parse_state :=
  match t with
  | TLBracket => Some (SArrayFirst stack)
  | TLBrace => Some (SObjectFirst stack)
  | TStr s => Some (plug (JString s) stack)
  | TWord w => option_map (λ v, plug v stack) (value_of_word w)
  | _ => None
  end.

Definition parse_step (st : parse_state) (t : token) : option parse_state :=
  match st with
  | SValue stack => start_value t stack
  | SArrayFirst stack =>
      match t with
      | TRBracket => Some (plug (JArray []) stack)
      | _ => start_value t (FArray [] :: stack)
      end
  | SArrayNext done stack =>
      match t with
      | TComma => Some (SValue (FArray done :: stack))
      | TRBracket => Some (plug (JArray (rev done)) stack)
      | _ => None
      end
  | SObjectFirst stack =>
      match t with
      | TRBrace => Some (plug (JObject []) stack)
      | TStr k => Some (SObjectColon [] k stack)
      | _ => None
      end
  | SObjectKey done stack =>
      match t with
      | TStr k => Some (SObjectColon done k stack)
      | _ => None
      end
  | SObjectColon done k stack =>
      match t with
      | TColon => Some (SValue (FObject done k :: stack))
      | _ => None
      end
  | SObjectNext done stack =>
      match t with
      | TComma => Some (SObjectKey done stack)
      | TRBrace => Some (plug (JObject done) stack)
      | _ => None
      end
  | SDone _ => None          (* extra data *)
  end.

Fixpoint parse (ts : list token) (st : parse_state) : option json :=
  match ts with
  | t :: ts' =>
      match parse_step st t with
      | Some st' => parse ts' st'
      | None => None
      end
  | [] =>
      match st with
      | SDone v => Some v
      | _ => None
      end
  end.

(** [json.loads(text)]: the decoded value, or JSONDecodeError. The
    interpreter's limits (recursion depth on nested containers, the digit
    limit of int conversion) are not part of the model. *)
Definition loads (text : string) : result json :=
  match lex text LDefault [] with
  | Some ts =>
      match parse ts (SValue []) with
      | Some v => Ok v
      | None => Err JSONDecodeError
      end
  | None => Err JSONDecodeError
  end.

End Json.
Export Json.

(** ** Python operations on decoded values *)

(** [v[k]] for a [str] key [k]: only a dict accepts it. *)
Definition getitem (v : json) (k : string) : result json :=
  match v with
  | JObject d =>
      match dict_get k d with
      | Some x => Ok x
      | None => Err (KeyError k)
      end
  | _ => Err TypeError
  end.

Definition is_continuation (c : ascii) : bool :=
  let n := Ascii.N_of_ascii c in ((128 <=? n) && (n <? 192))%N.

Fixpoint leading_continuation (s : string) : string :=
  match s with
  | String c s' => if is_continuation c then String c (leading_continuation s') else ""
  | EmptyString => ""
  end.

(** The characters of a [str], each as a one-character [str]. *)
Fixpoint characters (s : string) : list string :=
  match s with
  | String c s' =>
      if is_continuation c then characters s'
      else String c (leading_continuation s') :: characters s'
  | EmptyString => []
  end.

(** [for x in v]: a list yields its items, a dict its keys, a str its
    characters; None, bool and numbers are not iterable. *)
Definition iter (v : json) : result (list json) :=
  match v with
  | JArray items => Ok items
  | JObject d => Ok (JString <$> d.*1)
  | JString s => Ok (JString <$> characters s)
  | _ => Err TypeError
  end.

(** ** Documents *)

(** [metadata={"page_number": i, "element_type": x["element_type"]}] *)
Record Metadata : Type := { page_number : nat; element_type : json }.

(** langchain_core's [Document], restricted to the two fields the agent
    sets. *)
Record Document : Type := { page_content : string; metadata : Metadata }.

(** [Document(page_content=c, metadata=m)]: [page_content] is declared
    [str] and validated on construction, and of the values that
    [json.loads] produces only a str passes (pydantic does not turn
    numbers, None, lists or dicts into text); [metadata] is an
    unconstrained dict. *)
Definition Document_init (c : json) (m : Metadata) : result Document :=
  match c with
  | JString s => Ok {| page_content := s; metadata := m |}
  | _ => Err ValidationError
  end.

(** ** The declared response schema (lines 15-25) *)

(** The two pydantic classes say which decoded replies conform. The
    agent hands them to the model as a decoding constraint (through
    [prepare_schema_for_gemini]) and to the prompt; it never validates a
    reply with them. *)

Definition element_types : list string := ["Table"; "Figure"; "Image"; "Text-block"].

(** [DetectedLayoutItem]: both fields required, [element_type] one of the
    four literals, [summary] a str. *)
Definition DetectedLayoutItem_valid (x : json) : bool :=
  match x with
  | JObject d =>
      match dict_get "element_type" d, dict_get "summary" d with
      | Some (JString t), Some (JString _) => bool_decide (t ∈ element_types)
      | _, _ => false
      end
  | _ => false
  end.

(** [LayoutElements]: [layout_items: list[DetectedLayoutItem] = []], with
    no length constraint on the list. *)
Definition LayoutElements_valid (data : json) : bool :=
  match data with
  | JObject d =>
      match dict_get "layout_items" d with
      | None => true
      | Some (JArray items) => forallb DetectedLayoutItem_valid items
      | Some _ => false
      end
  | _ => false
  end.

(** ** Store and world *)

Definition loc : Type := nat.

(** The [messages] argument of one [generate_content] call. *)
Record Request : Type := { prompt : string; mime_type : string; data : string }.

Inductive object : Type :=
  | StrList (items : list string)                     (* list[str] *)
  | DocList (items : list Document)                   (* list[Document] *)
  | Dict (entries : list (string * loc))              (* a result dict *)
  | State (document_path : string)                    (* DocumentLayoutParsingState *)
          (pages_as_base64_png_images : loc) (documents : loc).

(** The objects allocated so far and the model requests issued so far,
    oldest first. *)
Record Store : Type := { heap : gmap loc object; requests : list Request }.

(** What lies outside the module: the file system, the helpers imported
    from document_utils and image_utils, the formatted schema that goes
    into the prompt, and the model. [None] stands for a raised
    exception: the rasterizer may raise, the encoder does not, and a
    model call may raise in [generate_content] or in [result.text]. The
    model sees the requests that came before the current one, so that a
    reply may depend on the history of the conversation. *)
Record World (Image : Type) : Type := {
  is_file : string → bool;                                (* Path(p).is_file() *)
  extract_images_from_pdf : string → option (list Image);
  pil_image_to_base64_png : Image → string;
  model_json_schema : string;                             (* LayoutElements.model_json_schema() *)
  generate_content : list Request → Request → option string;
}.
Arguments is_file {Image} _ _.
Arguments extract_images_from_pdf {Image} _ _.
Arguments pil_image_to_base64_png {Image} _ _.
Arguments model_json_schema {Image} _.
Arguments generate_content {Image} _ _ _.

(** ** The state-and-exception monad *)

Definition M (A : Type) : Type := Store → result A * Store.

Definition ret {A} (x : A) : M A := λ σ, (Ok x, σ).
Definition raise {A} (e : exn) : M A := λ σ, (Err e, σ).
Definition bind {A B} (m : M A) (k : A → M B) : M B :=
  λ σ, match m σ with
       | (Ok x, σ') => k x σ'
       | (Err e, σ') => (Err e, σ')
       end.
Definition lift {A} (r : result A) : M A := λ σ, (r, σ).

Declare Scope py_scope.
Delimit Scope py_scope with py.
Notation "x <- m ;; k" := (bind m (λ x, k))
  (at level 100, m at next level, right associativity) : py_scope.
Notation "m ;; k" := (bind m (λ _, k))
  (at level 100, right associativity) : py_scope.
Local Open Scope py_scope.

(** Truth value of a list: [False] exactly when it is empty. *)
Definition truth {A} (xs : list A) : bool :=
  match xs with
  | [] => false
  | _ :: _ => true
  end.

(** [assert b, msg] *)
Definition assert (b : bool) (msg : string) : M unit :=
  if b then ret () else raise (AssertionError msg).

Definition alloc (o : object) : M loc :=
  λ σ, let l := fresh (dom (heap σ)) in
       (Ok l, {| heap := <[l := o]> (heap σ); requests := requests σ |}).

Definition deref (l : loc) : M object :=
  λ σ, match heap σ !! l with
       | Some o => (Ok o, σ)
       | None => (Err AttributeError, σ)
       end.

Definition attr_document_path (state : loc) : M string :=
  o <- deref state ;;
  match o with State p _ _ => ret p | _ => raise AttributeError end.

Definition attr_pages (state : loc) : M loc :=
  o <- deref state ;;
  match o with State _ pl _ => ret pl | _ => raise AttributeError end.

(** [state.pages_as_base64_png_images = pl] *)
Definition setattr_pages (state pl : loc) : M unit :=
  o <- deref state ;;
  match o with
  | State p _ dl =>
      λ σ, (Ok (), {| heap := <[state := State p pl dl]> (heap σ); requests := requests σ |})
  | _ => raise AttributeError
  end.

Definition str_items (l : loc) : M (list string) :=
  o <- deref l ;;
  match o with StrList xs => ret xs | _ => raise AttributeError end.

(** [l.extend(new)] *)
Definition extend (l : loc) (new : list Document) : M unit :=
  o <- deref l ;;
  match o with
  | DocList xs =>
      λ σ, (Ok (), {| heap := <[l := DocList (xs ++ new)]> (heap σ); requests := requests σ |})
  | _ => raise AttributeError
  end.

(** [d[k]] on a result dict. *)
Definition dict_getitem (d : loc) (k : string) : M loc :=
  o <- deref d ;;
  match o with
  | Dict entries =>
      match list_find (λ e, e.1 = k) entries with
      | Some (_, (_, v)) => ret v
      | None => raise (KeyError k)
      end
  | _ => raise TypeError
  end.

(** ** DocumentParsingAgent *)

Section Agent.
Context {Image : Type} (w : World Image).

(** The [messages] list built at lines 72-78 for one page image. *)
Definition messages (base64_image_page : string) : Request :=
  {| prompt :=
       "Find and summarize all the relevant layout elements in this pdf page in the following format: "
       +:+ model_json_schema w +:+ ". "
       +:+ "Tables should have at least two columns and at least two rows. "
       +:+ "The coordinates should overlap with each layout item.";
     mime_type := "image/png";
     data := base64_image_page |}.

(** Line 80: the request is issued, then the call returns a text or
    raises. *)
Definition call_model (msgs : Request) : M string :=
  λ σ, let σ' := {| heap := heap σ; requests := requests σ ++ [msgs] |} in
       match generate_content w (requests σ) msgs with
       | Some text => (Ok text, σ')
       | None => (Err ModelError, σ')
       end.

(** Lines 84-90, one [Document(...)] of the comprehension: the keyword
    arguments are evaluated in order, then the constructor runs. *)
Definition make_document (i : nat) (x : json) : result Document :=
  rbind (getitem x "summary") (λ summary,
  rbind (getitem x "element_type") (λ et,
  Document_init summary {| page_number := i; element_type := et |})).

(** Lines 81-92 for page [i]: decode the text and build the list that
    is passed to [documents.extend]. *)
Definition page_elements (i : nat) (text : string) : result (list Document) :=
  rbind (loads text) (λ data,
  rbind (getitem data "layout_items") (λ items,
  rbind (iter items) (λ xs,
  rmap (make_document i) xs))).

(** The [for] loop of lines 68-96 from index [i] on; [documents] is the
    list object being filled. The logger calls are left out: they read
    [len] of the page list and of [data["layout_items"]], which at that
    point has already been iterated, so they neither fail nor write. *)
Fixpoint find_layout_items_loop (pages : list string) (i : nat) (documents : loc) : M unit :=
  match pages with
  | [] => ret ()
  | base64_image_page :: rest =>
      text <- call_model (messages base64_image_page) ;;
      new <- lift (page_elements i text) ;;
      extend documents new ;;
      find_layout_items_loop rest (S i) documents
  end.

(** [find_layout_items(self, state)]. The list that [enumerate] walks is
    read when the loop starts; the loop body writes only to [documents]. *)
Definition find_layout_items (state : loc) : M loc :=
  documents <- alloc (DocList []) ;;
  pl <- attr_pages state ;;
  pages <- str_items pl ;;
  find_layout_items_loop pages 0 documents ;;
  alloc (Dict [("documents", documents)]).

(** [get_images(cls, state)]. *)
Definition get_images (state : loc) : M loc :=
  document_path <- attr_document_path state ;;
  assert (is_file w document_path) "File does not exist" ;;
  images <- match extract_images_from_pdf w document_path with
            | Some images => ret images
            | None => raise RasterizerError
            end ;;
  assert (truth images) "No images extracted" ;;
  pages_as_base64_png_images <- alloc (StrList (pil_image_to_base64_png w <$> images)) ;;
  alloc (Dict [("pages_as_base64_png_images", pages_as_base64_png_images)]).

(** The driver of lines 102-111 for a given document path; constructing
    the state copies the two [[]] defaults, constructing the agent issues
    no request. The value is [result_node2]. *)
Definition main (document_path : string) : M loc :=
  p0 <- alloc (StrList []) ;;
  d0 <- alloc (DocList []) ;;
  _state <- alloc (State document_path p0 d0) ;;
  result_node1 <- get_images _state ;;
  pl <- dict_getitem result_node1 "pages_as_base64_png_images" ;;
  setattr_pages _state pl ;;
  find_layout_items _state.

(** *** Reading results back *)

Definition doc_list (σ : Store) (l : loc) : option (list Document) :=
  match heap σ !! l with
  | Some (DocList xs) => Some xs
  | _ => None
  end.

Definition str_list (σ : Store) (l : loc) : option (list string) :=
  match heap σ !! l with
  | Some (StrList xs) => Some xs
  | _ => None
  end.

(** [res["documents"]] as a Rocq list. *)
Definition documents_of (σ : Store) (res : loc) : option (list Document) :=
  match heap σ !! res with
  | Some (Dict [("documents", l)]) => doc_list σ l
  | _ => None
  end.

(** [res["pages_as_base64_png_images"]] as a Rocq list. *)
Definition pages_of (σ : Store) (res : loc) : option (list string) :=
  match heap σ !! res with
  | Some (Dict [("pages_as_base64_png_images", l)]) => str_list σ l
  | _ => None
  end.

(** The field values of the state object at [state]. *)
Definition read_state (σ : Store) (state : loc)
  : option (string * list string * list Document) :=
  match heap σ !! state with
  | Some (State path pl dl) =>
      match str_list σ pl, doc_list σ dl with
      | Some pages, Some docs => Some (path, pages, docs)
      | _, _ => None
      end
  | _ => None
  end.

(** [state] is a state object of [σ] with the given field values. *)
Definition state_at (σ : Store) (state : loc)
    (path : string) (pages : list string) (docs : list Document) : Prop :=
  read_state σ state = Some (path, pages, docs).

(** The model's reply to the request for page [i] when the requests for
    pages [0..i-1] were issued just before it, after the requests [log]. *)
Definition answer (log : list Request) (pages : list string) (i : nat) : option string :=
  match pages !! i with
  | Some p => generate_content w (log ++ (messages <$> take i pages)) (messages p)
  | None => None
  end.

End Agent.

(** ** Test doubles *)

(** A world with a single file [docs.pdf] whose pages are [images], an
    encoder that tags its input, and a mocked model that replies by the
    page image it is sent, whatever came before; it raises on an image it
    does not know. *)
Definition mock_world (images : list string) (replies : list (string * string)) : World string :=
  {| is_file p := String.eqb p "docs.pdf";
     extract_images_from_pdf _ := Some images;
     pil_image_to_base64_png i := "png:" +:+ i;
     model_json_schema := "{}";
     generate_content _ r := (λ e, e.2.2) <$> list_find (λ e, e.1 = data r) replies |}.

(** A store holding one state object (at 0) with the given pages. *)
Definition store_with (pages : list string) : Store :=
  {| heap := {[ 0 := State "docs.pdf" 1 2; 1 := StrList pages; 2 := DocList [] ]};
     requests := [] |}.

Definition empty_store : Store := {| heap := ∅; requests := [] |}.

(** Reply texts are written with an apostrophe where the text has a
    double quote. *)
Fixpoint text (s : string) : string :=
  match s with
  | String c s' => String (if Ascii.eqb c "'" then "034"%char else c) (text s')
  | EmptyString => EmptyString
  end.

Definition revenue_reply : string :=
  text "{'layout_items':[{'element_type':'Table','summary':'Revenue table'}]}".

Definition empty_reply : string := text "{'layout_items':[]}".


(** A summary is missing from the second item. *)
Definition no_summary_reply : string :=
  text "{'layout_items':[{'element_type':'Text-block','summary':'a'},{'element_type':'Table'}]}".

Definition item (summary : string) : string :=
  "{'element_type':'Text-block','summary':'" +:+ summary +:+ "'}".

(** Eleven items, each valid. *)
Definition eleven_reply : string :=
  text ("{'layout_items':["
        +:+ item "1" +:+ "," +:+ item "2" +:+ "," +:+ item "3" +:+ ","
        +:+ item "4" +:+ "," +:+ item "5" +:+ "," +:+ item "6" +:+ ","
        +:+ item "7" +:+ "," +:+ item "8" +:+ "," +:+ item "9" +:+ ","
        +:+ item "10" +:+ "," +:+ item "11" +:+ "]}").

(** Two pages: a revenue table on the first, nothing on the second. *)
Definition two_pages : list string := ["png:a"; "png:b"].

Definition two_page_world : World string :=
  mock_world ["a"; "b"] [("png:a", revenue_reply); ("png:b", empty_reply)].

(** One page, to which the model replies [reply]. *)
Definition one_page_world (reply : string) : World string :=
  mock_world ["a"] [("png:a", reply)].

(** The second page gets a reply that is not JSON. *)
Definition broken_world : World string :=
  mock_world ["a"; "b"] [("png:a", revenue_reply); ("png:b", "Sorry, I cannot do that.")].

(** Two items on one page, in this order. *)
Definition two_item_reply : string :=
  text ("{'layout_items':[{'element_type':'Figure','summary':'first'},"
        +:+ "{'element_type':'Table','summary':'second'}]}").

(** Two items on the first page, one on the second. *)
Definition ordered_world : World string :=
  mock_world ["a"; "b"] [("png:a", two_item_reply); ("png:b", revenue_reply)].




(** An item that is not a dict, then one without a summary. *)
Definition number_item_reply : string :=
  text "{'layout_items':[5,{'element_type':'Table'}]}".

(** The model knows the first page only: the call for the second raises. *)
Definition silent_world : World string :=
  mock_world ["a"; "b"] [("png:a", revenue_reply)].

Definition doc (summary : string) (i : nat) (et : json) : Document :=
  {| page_content := summary; metadata := {| page_number := i; element_type := et |} |}.

(** A decoded layout item with a summary and any value as element type. *)
Definition layout_item (it : string * json) : json :=
  JObject [("element_type", it.2); ("summary", JString it.1)].

(** ** Frame conditions *)

(** A call that took [σ] to [σ'] with result [r] left every object of
    [σ] as it was, the state object and its lists in particular, and a
    returned dict is a new object that holds a new list under [key]. *)
Definition frame_of (σ σ' : Store) (state : loc) (key : string) (r : result loc) : Prop :=
  heap σ ⊆ heap σ'
  ∧ (∀ fields, read_state σ state = Some fields → read_state σ' state = Some fields)
  ∧ ∀ res, r = Ok res →
      heap σ !! res = None
      ∧ ∃ l, heap σ' !! res = Some (Dict [(key, l)]) ∧ heap σ !! l = None.

(** ** Facts about the comprehension and the per-page step *)

Section ResultFacts.
Context {A B : Type} (f : A → result B).

Lemma rmap_Ok_lookup xs ys :
  rmap f xs = Ok ys →
  length ys = length xs ∧ ∀ j x, xs !! j = Some x → ∃ y, ys !! j = Some y ∧ f x = Ok y.
Proof.
  revert ys. induction xs as [|x xs IH]; intros ys; simpl.
  - intros [= <-]. split; [done|]. intros j x Hx. by rewrite lookup_nil in Hx.
  - destruct (f x) as [y|e] eqn:Hfx; simpl; [|done].
    destruct (rmap f xs) as [ys'|e] eqn:Hr; simpl; [|done].
    intros [= <-]. destruct (IH ys' eq_refl) as [Hlen Hall].
    split; [simpl; by rewrite Hlen|].
    intros [|j] x'; simpl.
    + intros [= <-]. eauto.
    + apply Hall.
Qed.

Lemma rmap_Err_elem xs e :
  rmap f xs = Err e → ∃ x, x ∈ xs ∧ f x = Err e.
Proof.
  induction xs as [|x xs IH]; simpl; [done|].
  destruct (f x) as [y|e'] eqn:Hfx; simpl.
  - destruct (rmap f xs) as [ys'|e''] eqn:Hr; simpl; [done|].
    intros [= <-]. destruct (IH eq_refl) as (x' & Hin & Hx').
    exists x'. split; [by right|done].
  - intros [= <-]. exists x. split; [by left|done].
Qed.



Lemma rmap_first_Err good bad rest e :
  Forall (λ x, ∃ y, f x = Ok y) good → f bad = Err e →
  rmap f (good ++ bad :: rest) = Err e.
Proof.
  intros Hgood Hbad. induction Hgood as [|x good [y Hx] _ IH]; simpl.
  - by rewrite Hbad.
  - by rewrite Hx; simpl; rewrite IH.
Qed.


End ResultFacts.

Section AgentFacts.
Context {Image : Type} (w : World Image).

Lemma getitem_class v k e : getitem v k = Err e → class_of e = SchemaViolationError.
Proof.
  destruct v as [| | | | |d]; simpl; try by intros [= <-].
  destruct (dict_get k d); [done|]. by intros [= <-].
Qed.

Lemma iter_class v e : iter v = Err e → class_of e = SchemaViolationError.
Proof. destruct v; simpl; try done; by intros [= <-]. Qed.

Lemma Document_init_class c m e :
  Document_init c m = Err e → class_of e = SchemaViolationError.
Proof. destruct c; simpl; try done; by intros [= <-]. Qed.

Lemma loads_class text e : loads text = Err e → class_of e = SchemaViolationError.
Proof.
  unfold loads. destruct (lex _ _ _) as [ts|]; [|by intros [= <-]].
  destruct (parse _ _); [done|]. by intros [= <-].
Qed.

Lemma make_document_class i x e :
  make_document i x = Err e → class_of e = SchemaViolationError.
Proof.
  unfold make_document.
  destruct (getitem x "summary") as [s|e1] eqn:H1; simpl.
  - destruct (getitem x "element_type") as [t|e2] eqn:H2; simpl.
    + apply Document_init_class.
    + intros [= <-]. by eapply getitem_class.
  - intros [= <-]. by eapply getitem_class.
Qed.

(** A document is built exactly from an item that has both keys and a
    [str] summary; nothing is asked of the element type. *)
Lemma make_document_Ok i x doc :
  make_document i x = Ok doc ↔
  ∃ s v, getitem x "summary" = Ok (JString s) ∧ getitem x "element_type" = Ok v
         ∧ doc = {| page_content := s; metadata := {| page_number := i; element_type := v |} |}.
Proof.
  unfold make_document. split.
  - destruct (getitem x "summary") as [c|] eqn:H1; simpl; [|done].
    destruct (getitem x "element_type") as [v|] eqn:H2; simpl; [|done].
    destruct c; simpl; try done. intros [= <-]. eauto.
  - intros (s & v & -> & -> & ->). done.
Qed.

Lemma page_elements_class i text e :
  page_elements i text = Err e → class_of e = SchemaViolationError.
Proof.
  unfold page_elements.
  destruct (loads text) as [data|e1] eqn:H1; simpl;
    [|intros [= <-]; by eapply loads_class].
  destruct (getitem data "layout_items") as [items|e2] eqn:H2; simpl;
    [|intros [= <-]; by eapply getitem_class].
  destruct (iter items) as [xs|e3] eqn:H3; simpl;
    [|intros [= <-]; by eapply iter_class].
  intros Hr. apply rmap_Err_elem in Hr as (x & _ & Hx). by eapply make_document_class.
Qed.

Lemma page_elements_Ok i text els :
  page_elements i text = Ok els ↔
  ∃ data items xs, loads text = Ok data ∧ getitem data "layout_items" = Ok items
    ∧ iter items = Ok xs ∧ rmap (make_document i) xs = Ok els.
Proof.
  unfold page_elements. split.
  - destruct (loads text) as [data|] eqn:H1; simpl; [|done].
    destruct (getitem data "layout_items") as [items|] eqn:H2; simpl; [|done].
    destruct (iter items) as [xs|] eqn:H3; simpl; [|done].
    intros Hr. by exists data, items, xs.
  - intros (data & items & xs & -> & H2 & H3 & H4). simpl.
    rewrite H2. simpl. rewrite H3. done.
Qed.

(** Every document built for page [i] is tagged [i]. *)
Lemma page_elements_page_number i text els doc :
  page_elements i text = Ok els → doc ∈ els → page_number (metadata doc) = i.
Proof.
  intros (data & items & xs & _ & _ & _ & Hr)%page_elements_Ok Hin.
  apply rmap_Ok_lookup in Hr as [Hlen Hall].
  apply list_elem_of_lookup in Hin as [j Hj].
  destruct (lookup_lt_is_Some_2 xs j) as [x Hx].
  { rewrite <- Hlen. by eapply lookup_lt_Some. }
  destruct (Hall j x Hx) as (y & Hy & Hmk).
  assert (y = doc) as -> by congruence.
  apply make_document_Ok in Hmk as (s & v & _ & _ & ->). done.
Qed.

End AgentFacts.

(** ** The loop of find_layout_items *)

Section LoopFacts.
Context {Image : Type} (w : World Image).

Lemma take_S_middle {A} (done : list A) p rest :
  take (S (length done)) (done ++ p :: rest) = done ++ [p].
Proof. induction done as [|x done IH]; simpl; [by rewrite take_0|by rewrite <- IH]. Qed.

Lemma answer_middle log0 done p rest :
  answer w log0 (done ++ p :: rest) (length done)
  = generate_content w (log0 ++ (messages w <$> done)) (messages w p).
Proof.
  unfold answer. rewrite list_lookup_middle; [|done].
  by rewrite take_app_length.
Qed.

(** What one run of the loop does, from page [length done] on, after the
    pages [done] have been processed: on success one request per page
    was added and [documents] grew by the per-page lists in order; on
    failure the requests stop at the failing page [k]. Only the object
    [documents] is written. *)
Lemma find_layout_items_loop_run log0 rest :
  ∀ done σ documents acc,
    heap σ !! documents = Some (DocList acc) →
    requests σ = log0 ++ (messages w <$> done) →
    match find_layout_items_loop w rest (length done) documents σ with
    | (Ok _, σ') =>
        requests σ' = log0 ++ (messages w <$> (done ++ rest))
        ∧ ∃ elss,
            heap σ' = <[documents := DocList (acc ++ concat elss)]> (heap σ)
            ∧ length elss = length rest
            ∧ ∀ j els, elss !! j = Some els →
                ∃ t, answer w log0 (done ++ rest) (length done + j) = Some t
                     ∧ page_elements (length done + j) t = Ok els
    | (Err e, σ') =>
        ∃ k part,
          length done ≤ k < length (done ++ rest)
          ∧ requests σ' = log0 ++ (messages w <$> take (S k) (done ++ rest))
          ∧ heap σ' = <[documents := DocList (acc ++ part)]> (heap σ)
          ∧ (∀ j, length done ≤ j < k →
               ∃ t els, answer w log0 (done ++ rest) j = Some t ∧ page_elements j t = Ok els)
          ∧ ((answer w log0 (done ++ rest) k = None ∧ e = ModelError)
             ∨ ∃ t, answer w log0 (done ++ rest) k = Some t ∧ page_elements k t = Err e)
    end.
Proof.
  induction rest as [|p rest IH]; intros done σ d acc Hd Hreq.
  - simpl. rewrite app_nil_r. split; [done|].
    exists []. simpl. rewrite app_nil_r. split; [by rewrite insert_id|].
    split; [done|]. intros j els Hj. by rewrite lookup_nil in Hj.
  - pose proof (answer_middle log0 done p rest) as Hans. rewrite <- Hreq in Hans.
    cbn [find_layout_items_loop]. unfold bind at 1. unfold call_model.
    destruct (generate_content w (requests σ) (messages w p)) as [t|] eqn:Hgen.
    2:{ exists (length done), []. rewrite length_app. simpl.
        split; [lia|]. split.
        { by rewrite take_S_middle, Hreq, fmap_app, app_assoc. }
        split; [by rewrite app_nil_r, insert_id|].
        split; [intros j ?; lia|]. by left. }
    unfold bind at 1. unfold lift at 1.
    destruct (page_elements (length done) t) as [new|e] eqn:Hpage.
    2:{ exists (length done), []. rewrite length_app. simpl.
        split; [lia|]. split.
        { by rewrite take_S_middle, Hreq, fmap_app, app_assoc. }
        split; [by rewrite app_nil_r, insert_id|].
        split; [intros j ?; lia|]. right. eauto. }
    unfold bind at 1. unfold extend, bind, deref. simpl. rewrite Hd. simpl.
    set (σ2 := {| heap := <[d:=DocList (acc ++ new)]> (heap σ);
                  requests := requests σ ++ [messages w p] |}).
    specialize (IH (done ++ [p]) σ2 d (acc ++ new)).
    rewrite length_app, Nat.add_1_r in IH. simpl in IH.
    rewrite <- (app_assoc done [p] rest) in IH. simpl in IH.
    destruct (find_layout_items_loop w rest (S (length done)) d σ2) as [[[]|e] σ'].
    + destruct IH as (Hreq' & elss & Hheap & Hlen & Hall).
      { apply lookup_insert_eq. }
      { by rewrite Hreq, fmap_app, app_assoc. }
      split; [done|]. exists (new :: elss). simpl.
      split; [by rewrite Hheap, insert_insert_eq, app_assoc|].
      split; [by rewrite Hlen|].
      intros [|j] els; simpl.
      * intros [= <-]. rewrite Nat.add_0_r. eauto.
      * intros Hj. rewrite <- Nat.add_succ_comm. by apply Hall.
    + destruct IH as (k & part & Hk & Hreq' & Hheap & Hbefore & Hat).
      { apply lookup_insert_eq. }
      { by rewrite Hreq, fmap_app, app_assoc. }
      exists k, (new ++ part).
      split; [lia|]. split; [done|].
      split; [by rewrite Hheap, insert_insert_eq, app_assoc|].
      split; [|done].
      intros j Hj. destruct (decide (j = length done)) as [->|Hne].
      * eauto.
      * apply Hbefore. lia.
Qed.

End LoopFacts.

(** ** Whole-method facts *)

Section MethodFacts.
Context {Image : Type} (w : World Image).

Lemma fresh_not_in_heap (h : gmap loc object) : h !! fresh (dom h) = None.
Proof. apply not_elem_of_dom, is_fresh. Qed.

Lemma fresh_ne (h : gmap loc object) l o : h !! l = Some o → l ≠ fresh (dom h).
Proof. intros Hl ->. by rewrite fresh_not_in_heap in Hl. Qed.

(** find_layout_items on a state object whose page list is [pages]: the result dict, the list
    it holds and the requests, or the page at which the run stopped. *)
Lemma find_layout_items_run σ state path pl dl pages :
  heap σ !! state = Some (State path pl dl) →
  heap σ !! pl = Some (StrList pages) →
  match find_layout_items w state σ with
  | (Ok res, σ') =>
      requests σ' = requests σ ++ (messages w <$> pages)
      ∧ ∃ elss d,
          heap σ' = <[res := Dict [("documents", d)]]> (<[d := DocList (concat elss)]> (heap σ))
          ∧ heap σ !! d = None ∧ heap σ !! res = None ∧ res ≠ d
          ∧ length elss = length pages
          ∧ ∀ j els, elss !! j = Some els →
              ∃ t, answer w (requests σ) pages j = Some t ∧ page_elements j t = Ok els
  | (Err e, σ') =>
      ∃ k part d,
        k < length pages
        ∧ requests σ' = requests σ ++ (messages w <$> take (S k) pages)
        ∧ heap σ' = <[d := DocList part]> (heap σ) ∧ heap σ !! d = None
        ∧ (∀ j, j < k →
             ∃ t els, answer w (requests σ) pages j = Some t ∧ page_elements j t = Ok els)
        ∧ ((answer w (requests σ) pages k = None ∧ e = ModelError)
           ∨ ∃ t, answer w (requests σ) pages k = Some t ∧ page_elements k t = Err e)
  end.
Proof.
  intros Hst Hpl'.
  unfold find_layout_items, bind at 1, alloc. cbn [heap requests].
  set (d := fresh (dom (heap σ))).
  assert (heap σ !! d = None) as Hd by apply fresh_not_in_heap.
  unfold bind at 1, attr_pages, bind at 1, deref. cbn [heap requests].
  rewrite lookup_insert_ne by (symmetry; by eapply fresh_ne).
  rewrite Hst. cbn [ret].
  unfold bind at 1, str_items, bind at 1, deref. cbn [heap requests].
  rewrite lookup_insert_ne by (symmetry; by eapply fresh_ne).
  rewrite Hpl'. cbn [ret].
  set (σ1 := {| heap := <[d:=DocList []]> (heap σ); requests := requests σ |}).
  pose proof (find_layout_items_loop_run w (requests σ) pages [] σ1 d []) as Hloop.
  simpl in Hloop. rewrite app_nil_r in Hloop.
  specialize (Hloop (lookup_insert_eq _ _ _) eq_refl).
  unfold bind at 1.
  destruct (find_layout_items_loop w pages 0 d σ1) as [[[]|e] σ'].
  - destruct Hloop as (Hreq & elss & Hheap & Hlen & Hall).
    rewrite insert_insert_eq in Hheap.
    unfold alloc. cbn [heap requests].
    split; [done|]. exists elss, d.
    set (res := fresh (dom (heap σ'))).
    assert (heap σ' !! res = None) as Hres by apply fresh_not_in_heap.
    rewrite <- Hheap. split; [done|]. split; [done|].
    assert (res ≠ d) as Hne.
    { intros Heq. rewrite Heq, Hheap, lookup_insert_eq in Hres. done. }
    split; [|done].
    rewrite Hheap, lookup_insert_ne in Hres by done. done.
  - destruct Hloop as (k & part & Hk & Hreq & Hheap & Hbefore & Hat).
    rewrite insert_insert_eq in Hheap.
    exists k, part, d. split; [lia|]. split; [done|]. split; [done|]. split; [done|].
    split; [|done]. intros j Hj. apply Hbefore. lia.
Qed.

Lemma state_at_inv σ state path pages docs :
  state_at σ state path pages docs →
  ∃ pl dl, heap σ !! state = Some (State path pl dl)
           ∧ heap σ !! pl = Some (StrList pages) ∧ heap σ !! dl = Some (DocList docs).
Proof.
  unfold state_at, read_state, str_list, doc_list. intros Hst.
  destruct (heap σ !! state) as [[| | |p pl dl]|]; try done.
  exists pl, dl.
  destruct (heap σ !! pl) as [[]|]; try done.
  destruct (heap σ !! dl) as [[]|]; try done.
  by simplify_eq.
Qed.

Lemma state_at_intro σ state path pl dl pages docs :
  heap σ !! state = Some (State path pl dl) →
  heap σ !! pl = Some (StrList pages) → heap σ !! dl = Some (DocList docs) →
  state_at σ state path pages docs.
Proof.
  intros Hst Hpl Hdl. unfold state_at, read_state, str_list, doc_list.
  by rewrite Hst, Hpl, Hdl.
Qed.

(** A store that extends another keeps every state object in place. *)
Lemma state_at_mono σ σ' state path pages docs :
  heap σ ⊆ heap σ' → state_at σ state path pages docs → state_at σ' state path pages docs.
Proof.
  intros Hsub (pl & dl & Hst & Hpl & Hdl)%state_at_inv.
  apply (state_at_intro σ' state path pl dl); by eapply lookup_weaken.
Qed.

Lemma insert_fresh_subseteq (h : gmap loc object) l o : h !! l = None → h ⊆ <[l := o]> h.
Proof. apply insert_subseteq. Qed.

Lemma documents_of_result (h : gmap loc object) log res d docs :
  res ≠ d →
  documents_of {| heap := <[res := Dict [("documents", d)]]> (<[d := DocList docs]> h);
                  requests := log |} res = Some docs.
Proof.
  intros Hne. unfold documents_of, doc_list. cbn [heap].
  rewrite lookup_insert_eq. rewrite lookup_insert_ne by done.
  by rewrite lookup_insert_eq.
Qed.

(** If every page gets a reply and every reply yields its list of
    elements, the method returns; it has asked once per page, in order,
    and the result is the lists joined in page order. *)
Lemma find_layout_items_all_pages σ state path pages docs elss :
  state_at σ state path pages docs →
  length elss = length pages →
  (∀ j els, elss !! j = Some els →
     ∃ t, answer w (requests σ) pages j = Some t ∧ page_elements j t = Ok els) →
  ∃ res σ', find_layout_items w state σ = (Ok res, σ')
    ∧ requests σ' = requests σ ++ (messages w <$> pages)
    ∧ documents_of σ' res = Some (concat elss)
    ∧ heap σ ⊆ heap σ'.
Proof.
  intros (pl & dl & Hst & Hpl & _)%state_at_inv Hlen Hall.
  pose proof (find_layout_items_run σ state path pl dl pages Hst Hpl) as Hrun.
  destruct (find_layout_items w state σ) as [[res|e] σ'].
  - destruct Hrun as (Hreq & elss' & d & Hheap & Hd & Hres & Hne & Hlen' & Hall').
    exists res, σ'. split; [done|]. split; [done|].
    assert (elss' = elss) as ->.
    { apply list_eq. intros j.
      destruct (elss' !! j) as [els'|] eqn:H1, (elss !! j) as [els|] eqn:H2; try done.
      - destruct (Hall' _ _ H1) as (t' & Ht' & Hp'), (Hall _ _ H2) as (t & Ht & Hp).
        congruence.
      - apply lookup_lt_Some in H1. apply lookup_ge_None in H2. lia.
      - apply lookup_lt_Some in H2. apply lookup_ge_None in H1. lia. }
    destruct σ' as [h' log']. cbn [heap requests] in *. subst h'.
    split; [by apply documents_of_result|].
    etrans; [apply (insert_fresh_subseteq _ d (DocList (concat elss)) Hd)|].
    apply insert_subseteq. by rewrite lookup_insert_ne.
  - exfalso. destruct Hrun as (k & part & d & Hk & _ & _ & _ & _ & Hat).
    destruct (lookup_lt_is_Some_2 elss k) as [els Hels]; [lia|].
    destruct (Hall _ _ Hels) as (t & Ht & Hp).
    destruct Hat as [[Hnone _]|(t' & Ht' & Hp')]; congruence.
Qed.

(** A failed run leaves a store that extends the old one, and names the
    first page that could not be processed. *)
Lemma find_layout_items_failure σ state path pages docs e σ' :
  state_at σ state path pages docs →
  find_layout_items w state σ = (Err e, σ') →
  heap σ ⊆ heap σ'
  ∧ ∃ k, k < length pages
      ∧ requests σ' = requests σ ++ (messages w <$> take (S k) pages)
      ∧ (∀ j, j < k →
           ∃ t els, answer w (requests σ) pages j = Some t ∧ page_elements j t = Ok els)
      ∧ ((answer w (requests σ) pages k = None ∧ e = ModelError)
         ∨ ∃ t, answer w (requests σ) pages k = Some t ∧ page_elements k t = Err e).
Proof.
  intros (pl & dl & Hst & Hpl & _)%state_at_inv Hrun'.
  pose proof (find_layout_items_run σ state path pl dl pages Hst Hpl) as Hrun.
  rewrite Hrun' in Hrun.
  destruct Hrun as (k & part & d & Hk & Hreq & Hheap & Hd & Hbefore & Hat).
  split; [rewrite Hheap; by apply insert_subseteq|].
  exists k. done.
Qed.

Lemma bind_ok {A B} (m : M A) (k : A → M B) σ x σ' :
  m σ = (Ok x, σ') → bind m k σ = k x σ'.
Proof. unfold bind. by intros ->. Qed.

Lemma bind_err {A B} (m : M A) (k : A → M B) σ e σ' :
  m σ = (Err e, σ') → bind m k σ = (Err e, σ').
Proof. unfold bind. by intros ->. Qed.

Lemma dict_getitem_eq σ d k v :
  heap σ !! d = Some (Dict [(k, v)]) → dict_getitem d k σ = (Ok v, σ).
Proof.
  intros Hd. unfold dict_getitem, bind, deref. rewrite Hd. simpl.
  by rewrite decide_True.
Qed.

Lemma setattr_pages_eq σ state path pl dl pl' :
  heap σ !! state = Some (State path pl dl) →
  setattr_pages state pl' σ
  = (Ok (), {| heap := <[state := State path pl' dl]> (heap σ); requests := requests σ |}).
Proof. intros Hst. unfold setattr_pages, bind, deref. by rewrite Hst. Qed.

(** get_images on a state object, case by case. *)
Lemma get_images_run σ state path pl dl :
  heap σ !! state = Some (State path pl dl) →
  get_images w state σ =
    if is_file w path then
      match extract_images_from_pdf w path with
      | None => (Err RasterizerError, σ)
      | Some [] => (Err (AssertionError "No images extracted"), σ)
      | Some images =>
          let l := fresh (dom (heap σ)) in
          let h := <[l := StrList (pil_image_to_base64_png w <$> images)]> (heap σ) in
          (Ok (fresh (dom h)),
           {| heap := <[fresh (dom h) := Dict [("pages_as_base64_png_images", l)]]> h;
              requests := requests σ |})
      end
    else (Err (AssertionError "File does not exist"), σ).
Proof.
  intros Hst. unfold get_images, bind at 1, attr_document_path, bind at 1, deref.
  rewrite Hst. cbn [ret]. unfold bind at 1.
  destruct (is_file w path); cbn [assert ret raise]; [|done].
  unfold bind at 1.
  destruct (extract_images_from_pdf w path) as [[|x images]|]; cbn [ret raise]; try done.
Qed.

(** The driver: either get_images stops it before any request, or it is
    a run of find_layout_items on a state that holds the encoded pages. *)
Lemma main_run path σ :
  if is_file w path then
    match extract_images_from_pdf w path with
    | None => ∃ σ', main w path σ = (Err RasterizerError, σ') ∧ requests σ' = requests σ
    | Some [] =>
        ∃ σ', main w path σ = (Err (AssertionError "No images extracted"), σ')
              ∧ requests σ' = requests σ
    | Some images =>
        ∃ state σ0, main w path σ = find_layout_items w state σ0
          ∧ requests σ0 = requests σ
          ∧ state_at σ0 state path (pil_image_to_base64_png w <$> images) []
    end
  else ∃ σ', main w path σ = (Err (AssertionError "File does not exist"), σ')
             ∧ requests σ' = requests σ.
Proof.
  set (p0 := fresh (dom (heap σ))).
  set (h1 := <[p0 := StrList []]> (heap σ)).
  set (d0 := fresh (dom h1)).
  set (h2 := <[d0 := DocList []]> h1).
  set (st := fresh (dom h2)).
  set (h3 := <[st := State path p0 d0]> h2).
  set (σ3 := {| heap := h3; requests := requests σ |}).
  assert (d0 ≠ st) as Hd0st.
  { apply (fresh_ne h2 d0 (DocList [])). apply lookup_insert_eq. }
  assert (heap σ3 !! st = Some (State path p0 d0)) as Hst by apply lookup_insert_eq.
  assert (main w path σ =
          match get_images w st σ3 with
          | (Ok r1, σ') =>
              (pl <- dict_getitem r1 "pages_as_base64_png_images" ;;
               setattr_pages st pl ;; find_layout_items w st) σ'
          | (Err e, σ') => (Err e, σ')
          end) as Hmain by reflexivity.
  rewrite (get_images_run σ3 st path p0 d0 Hst) in Hmain.
  destruct (is_file w path); [|by eexists].
  destruct (extract_images_from_pdf w path) as [[|x images]|]; try by eexists.
  rewrite Hmain. clear Hmain. cbn zeta. cbn [heap requests] in *.
  set (pages := pil_image_to_base64_png w <$> x :: images).
  set (l := fresh (dom h3)).
  set (h4 := <[l := StrList pages]> h3).
  set (r1 := fresh (dom h4)).
  set (h5 := <[r1 := Dict [("pages_as_base64_png_images", l)]]> h4).
  assert (h3 !! d0 = Some (DocList [])) as Hd0.
  { unfold h3. rewrite lookup_insert_ne by done. apply lookup_insert_eq. }
  assert (st ≠ l) as Hstl by (by eapply fresh_ne).
  assert (d0 ≠ l) as Hd0l by (by eapply fresh_ne).
  assert (h4 !! st = Some (State path p0 d0)) as Hst4.
  { unfold h4. by rewrite lookup_insert_ne. }
  assert (h4 !! d0 = Some (DocList [])) as Hd4.
  { unfold h4. by rewrite lookup_insert_ne. }
  assert (h4 !! l = Some (StrList pages)) as Hl4 by apply lookup_insert_eq.
  assert (st ≠ r1) as Hstr1 by (by eapply fresh_ne).
  assert (l ≠ r1) as Hlr1 by (by eapply fresh_ne).
  assert (d0 ≠ r1) as Hd0r1 by (by eapply fresh_ne).
  assert (h5 !! st = Some (State path p0 d0)) as Hst5.
  { unfold h5. by rewrite lookup_insert_ne. }
  erewrite bind_ok; [|apply dict_getitem_eq; cbn [heap]; apply lookup_insert_eq].
  erewrite bind_ok; [|eapply setattr_pages_eq; cbn [heap]; fold h5; exact Hst5].
  cbn [heap requests]. fold h5.
  eexists _, _. split; [reflexivity|]. split; [done|].
  apply (state_at_intro _ st path l d0); cbn [heap].
  - apply lookup_insert_eq.
  - rewrite (lookup_insert_ne _ st l) by done.
    unfold h5. by rewrite (lookup_insert_ne _ r1 l).
  - rewrite (lookup_insert_ne _ st d0) by done.
    unfold h5. by rewrite (lookup_insert_ne _ r1 d0).
Qed.

End MethodFacts.

(** ** Frame: what the two methods leave alone *)

Section Frame.
Context {Image : Type} (w : World Image).

Lemma elem_of_concat {A} (x : A) (ls : list (list A)) :
  x ∈ concat ls ↔ ∃ j l, ls !! j = Some l ∧ x ∈ l.
Proof.
  induction ls as [|l ls IH]; simpl.
  - split; [by intros ?%elem_of_nil|]. intros (j & l & Hj & _). by rewrite lookup_nil in Hj.
  - rewrite elem_of_app, IH. split.
    + intros [Hx|(j & l' & Hj & Hx)]; [by exists 0, l|by exists (S j), l'].
    + intros ([|j] & l' & Hj & Hx); simpl in Hj; [left; by simplify_eq|right; eauto].
Qed.

(** get_images writes to no existing object and issues no request; what
    it returns is a new dict holding a new list. *)
Lemma get_images_frame σ state :
  match get_images w state σ with
  | (r, σ') =>
      heap σ ⊆ heap σ' ∧ requests σ' = requests σ
      ∧ ∀ res, r = Ok res →
          heap σ !! res = None
          ∧ ∃ l, heap σ' !! res = Some (Dict [("pages_as_base64_png_images", l)])
                 ∧ heap σ !! l = None
  end.
Proof.
  destruct (heap σ !! state) as [o|] eqn:Hst.
  2:{ unfold get_images, bind at 1, attr_document_path, bind, deref. rewrite Hst. done. }
  destruct o as [xs|xs|es|path pl dl];
    try (unfold get_images, bind at 1, attr_document_path, bind, deref; rewrite Hst; done).
  rewrite (get_images_run w σ state path pl dl Hst).
  destruct (is_file w path); [|done].
  destruct (extract_images_from_pdf w path) as [[|x images]|]; try done.
  cbn zeta. cbn [heap requests].
  set (l := fresh (dom (heap σ))).
  set (h := <[l := _]> (heap σ)).
  set (res := fresh (dom h)).
  assert (heap σ !! l = None) as Hl by apply fresh_not_in_heap.
  assert (h !! res = None) as Hres by apply fresh_not_in_heap.
  assert (res ≠ l) as Hne.
  { intros Heq. unfold h in Hres. by rewrite Heq, lookup_insert_eq in Hres. }
  assert (heap σ !! res = None) as Hres'.
  { unfold h in Hres. by rewrite lookup_insert_ne in Hres. }
  split; [|split; [done|]].
  - etrans; [by apply (insert_subseteq (heap σ) l)|]. by apply insert_subseteq.
  - intros ? [= <-]. split; [done|]. exists l. by rewrite lookup_insert_eq.
Qed.

Lemma attr_pages_cases σ state :
  attr_pages state σ = (Err AttributeError, σ)
  ∨ ∃ path pl dl, heap σ !! state = Some (State path pl dl) ∧ attr_pages state σ = (Ok pl, σ).
Proof.
  unfold attr_pages, bind, deref.
  destruct (heap σ !! state) as [[| | |path pl dl]|]; try by left.
  right. by exists path, pl, dl.
Qed.

Lemma str_items_cases σ l :
  str_items l σ = (Err AttributeError, σ)
  ∨ ∃ xs, heap σ !! l = Some (StrList xs) ∧ str_items l σ = (Ok xs, σ).
Proof.
  unfold str_items, bind, deref.
  destruct (heap σ !! l) as [[xs| | |]|]; try by left.
  right. by exists xs.
Qed.

(** Without a state object that points to a list of pages, the method
    stops at the attribute access, after it has created [documents]. *)
Lemma find_layout_items_ill_formed σ state :
  (∀ path pl dl pages,
     heap σ !! state = Some (State path pl dl) → heap σ !! pl ≠ Some (StrList pages)) →
  find_layout_items w state σ
  = (Err AttributeError,
     {| heap := <[fresh (dom (heap σ)) := DocList []]> (heap σ); requests := requests σ |}).
Proof.
  intros Hill. unfold find_layout_items.
  set (d := fresh (dom (heap σ))).
  assert (heap σ !! d = None) as Hd by apply fresh_not_in_heap.
  erewrite bind_ok by reflexivity.
  set (σ1 := {| heap := <[d := DocList []]> (heap σ); requests := requests σ |}).
  destruct (attr_pages_cases σ1 state) as [Herr|(path & pl & dl & Hst & Hok)].
  { by erewrite bind_err. }
  erewrite bind_ok by exact Hok.
  destruct (str_items_cases σ1 pl) as [Herr|(xs & Hpl & _)].
  { by erewrite bind_err. }
  exfalso. cbn [heap σ1] in Hst, Hpl.
  destruct (decide (d = state)) as [<-|Hne]; [by rewrite lookup_insert_eq in Hst|].
  rewrite lookup_insert_ne in Hst by done.
  destruct (decide (d = pl)) as [<-|Hne']; [by rewrite lookup_insert_eq in Hpl|].
  rewrite lookup_insert_ne in Hpl by done.
  by eapply Hill.
Qed.

(** find_layout_items writes to no existing object; what it returns is a
    new dict holding a new list. *)
Lemma find_layout_items_frame σ state :
  match find_layout_items w state σ with
  | (r, σ') =>
      heap σ ⊆ heap σ'
      ∧ ∀ res, r = Ok res →
          heap σ !! res = None
          ∧ ∃ l, heap σ' !! res = Some (Dict [("documents", l)]) ∧ heap σ !! l = None
  end.
Proof.
  destruct (heap σ !! state) as [[| | |path pl dl]|] eqn:Hst;
    try (rewrite find_layout_items_ill_formed by (intros; congruence);
         split; [apply insert_subseteq, fresh_not_in_heap|done]).
  destruct (heap σ !! pl) as [[pages| | |]|] eqn:Hpl;
    try (rewrite find_layout_items_ill_formed by (intros; congruence);
         split; [apply insert_subseteq, fresh_not_in_heap|done]).
  pose proof (find_layout_items_run w σ state path pl dl pages Hst Hpl) as Hrun.
  destruct (find_layout_items w state σ) as [[res|e] σ'].
  - destruct Hrun as (_ & elss & d & Hheap & Hd' & Hres & Hne'' & _).
    split.
    + rewrite Hheap. etrans; [by apply (insert_subseteq (heap σ) d)|].
      apply insert_subseteq. by rewrite lookup_insert_ne.
    + intros ? [= <-]. split; [done|]. exists d. by rewrite Hheap, lookup_insert_eq.
  - destruct Hrun as (k & part & d & _ & _ & Hheap & Hd' & _).
    split; [|done]. rewrite Hheap. by apply insert_subseteq.
Qed.

End Frame.

(** ** The claims *)

Section Claims.
Context {Image : Type} (w : World Image).

Lemma answer_Some log pages j t :
  answer w log pages j = Some t →
  ∃ p, pages !! j = Some p
       ∧ generate_content w (log ++ (messages w <$> take j pages)) (messages w p) = Some t.
Proof. unfold answer. destruct (pages !! j) as [p|]; [eauto|done]. Qed.

Lemma page_elements_loads_Err i t e : loads t = Err e → page_elements i t = Err e.
Proof. unfold page_elements. by intros ->. Qed.

(** C1: every element returned by find_layout_items carries a page
    number that is an index into the list of page images, and the
    element was built from the model's reply to the request that carried
    the image at that index. *)
Theorem C1_page_number_indexes_pages σ state path pages docs0 res σ' :
  state_at σ state path pages docs0 →
  find_layout_items w state σ = (Ok res, σ') →
  ∃ docs, documents_of σ' res = Some docs ∧
    ∀ d, d ∈ docs →
      page_number (metadata d) < length pages
      ∧ ∃ p t els,
          pages !! page_number (metadata d) = Some p
          ∧ data (messages w p) = p
          ∧ answer w (requests σ) pages (page_number (metadata d)) = Some t
          ∧ page_elements (page_number (metadata d)) t = Ok els
          ∧ d ∈ els.
Proof.
  intros (pl & dl & Hst & Hpl & _)%state_at_inv Hrun'.
  pose proof (find_layout_items_run w σ state path pl dl pages Hst Hpl) as Hrun.
  rewrite Hrun' in Hrun.
  destruct Hrun as (_ & elss & l & Hheap & _ & _ & Hne & Hlen & Hall).
  exists (concat elss). split.
  { destruct σ' as [h' log']. cbn [heap] in Hheap. subst h'. by apply documents_of_result. }
  intros d (j & els & Hj & Hd)%elem_of_concat.
  destruct (Hall j els Hj) as (t & Ht & Hp).
  rewrite (page_elements_page_number j t els d Hp Hd).
  destruct (answer_Some _ _ _ _ Ht) as (p & Hpj & _).
  split; [by eapply lookup_lt_Some|].
  by exists p, t, els.
Qed.


(** C3: get_images fails, with an error of the input class, exactly when
    the path is not a file or no page image comes out of the PDF; it
    issues no model request, and neither does the driver when get_images
    fails; when it succeeds the returned list is non-empty and holds one
    encoded image per extracted page. *)
Theorem C3_get_images_input_errors σ state path pl dl :
  heap σ !! state = Some (State path pl dl) →
  let no_pages :=
    is_file w path = false
    ∨ extract_images_from_pdf w path = None
    ∨ extract_images_from_pdf w path = Some [] in
  match get_images w state σ with
  | (r, σ') =>
      requests σ' = requests σ
      ∧ ((∃ e, r = Err e) ↔ no_pages)
      ∧ (∀ e, r = Err e → class_of e = InputError)
      ∧ (∀ res, r = Ok res →
           ∃ images pages,
             extract_images_from_pdf w path = Some images
             ∧ pages_of σ' res = Some pages
             ∧ pages = (pil_image_to_base64_png w <$> images)
             ∧ pages ≠ [] ∧ length pages = length images)
  end
  ∧ (no_pages →
     ∀ σ0, ∃ e σ1, main w path σ0 = (Err e, σ1)
                   ∧ class_of e = InputError ∧ requests σ1 = requests σ0).
Proof.
  intros Hst no_pages. subst no_pages. split.
  - rewrite (get_images_run w σ state path pl dl Hst).
    destruct (is_file w path).
    2:{ split; [done|]. split; [split; eauto|]. split; [by intros e [= <-]|done]. }
    destruct (extract_images_from_pdf w path) as [[|x images]|].
    + split; [done|]. split; [split; eauto|]. split; [by intros e [= <-]|done].
    + cbn zeta. split; [done|]. split.
      { split; [by intros [e ?]|]. intros [?|[?|?]]; done. }
      split; [done|]. intros res [= <-].
      exists (x :: images), (pil_image_to_base64_png w <$> x :: images).
      split; [done|]. split; [|split; [done|split; [done|by rewrite length_fmap]]].
      unfold pages_of, str_list. cbn [heap].
      rewrite lookup_insert_eq.
      rewrite lookup_insert_ne.
      * by rewrite lookup_insert_eq.
      * intros Heq.
        pose proof (fresh_not_in_heap
          (<[fresh (dom (heap σ)) := StrList (pil_image_to_base64_png w <$> x :: images)]>
             (heap σ))) as Hf.
        by rewrite Heq, lookup_insert_eq in Hf.
    + split; [done|]. split; [split; eauto|]. split; [by intros e [= <-]|done].
  - intros Hno σ0. pose proof (main_run w path σ0) as Hmain.
    destruct (is_file w path).
    2:{ destruct Hmain as (σ1 & -> & Hreq). by eexists _, _. }
    destruct (extract_images_from_pdf w path) as [[|x images]|].
    + destruct Hmain as (σ1 & -> & Hreq). by eexists _, _.
    + destruct Hno as [?|[?|?]]; done.
    + destruct Hmain as (σ1 & -> & Hreq). by eexists _, _.
Qed.

(** A page whose reply cannot be turned into elements stops the run,
    provided the model replied to the pages before it. *)
Lemma find_layout_items_page_fails σ state path pages docs0 k t e0 :
  state_at σ state path pages docs0 →
  (∀ j, j < k → answer w (requests σ) pages j ≠ None) →
  answer w (requests σ) pages k = Some t →
  page_elements k t = Err e0 →
  ∃ e σ', find_layout_items w state σ = (Err e, σ')
    ∧ class_of e = SchemaViolationError
    ∧ state_at σ' state path pages docs0
    ∧ ((∀ j, j < k →
          ∃ t' els, answer w (requests σ) pages j = Some t' ∧ page_elements j t' = Ok els) →
       e = e0).
Proof.
  intros Hst Hreplies Hk Hpk.
  destruct (find_layout_items w state σ) as [[res|e] σ'] eqn:Hrun.
  - exfalso.
    destruct (state_at_inv σ state path pages docs0 Hst) as (pl & dl & Hs & Hpl & _).
    pose proof (find_layout_items_run w σ state path pl dl pages Hs Hpl) as Hr.
    rewrite Hrun in Hr. destruct Hr as (_ & elss & l & _ & _ & _ & _ & Hlen & Hall).
    destruct (answer_Some _ _ _ _ Hk) as (p & Hp & _).
    destruct (lookup_lt_is_Some_2 elss k) as [els Hels].
    { rewrite Hlen. by eapply lookup_lt_Some. }
    destruct (Hall k els Hels) as (t' & Ht' & Hp'). congruence.
  - destruct (find_layout_items_failure w σ state path pages docs0 e σ' Hst Hrun)
      as (Hsub & k' & Hk' & _ & Hbefore & Hat).
    exists e, σ'. split; [done|].
    assert (k' ≤ k) as Hle.
    { destruct (decide (k' ≤ k)) as [|Hgt]; [done|].
      destruct (Hbefore k) as (t' & els & Ht' & Hp'); [lia|]. congruence. }
    split; [|split; [by eapply state_at_mono|]].
    + destruct Hat as [[Hnone _]|(t' & _ & Hp')]; [|by eapply page_elements_class].
      destruct (decide (k' = k)) as [->|Hne]; [congruence|].
      exfalso. apply (Hreplies k'); [lia|done].
    + intros Hparsed. destruct (decide (k' = k)) as [->|Hne].
      * destruct Hat as [[Hnone _]|(t' & Ht' & Hp')]; congruence.
      * destruct (Hparsed k') as (t' & els & Ht' & Hp'); [lia|].
        destruct Hat as [[Hnone _]|(t'' & Ht'' & Hp'')]; congruence.
Qed.


(** C4: if the model replies with a text to every page up to page [k]
    and the text for page [k] is not JSON, find_layout_items fails with
    an error of the schema-violation class; nothing is returned, and the
    caller's state, its [documents] included, is as before. When the
    pages before [k] were processed, the error is the JSON decode error. *)
Theorem C4_malformed_json_aborts σ state path pages docs0 k t :
  state_at σ state path pages docs0 →
  (∀ j, j < k → answer w (requests σ) pages j ≠ None) →
  answer w (requests σ) pages k = Some t →
  loads t = Err JSONDecodeError →
  ∃ e σ', find_layout_items w state σ = (Err e, σ')
    ∧ class_of e = SchemaViolationError
    ∧ state_at σ' state path pages docs0
    ∧ ((∀ j, j < k →
          ∃ t' els, answer w (requests σ) pages j = Some t' ∧ page_elements j t' = Ok els) →
       e = JSONDecodeError).
Proof.
  intros Hst Hreplies Hk Hbad.
  apply (find_layout_items_page_fails σ state path pages docs0 k t); try done.
  by apply page_elements_loads_Err.
Qed.


(** C6, as the code has it: the declared schema puts no bound on the
    number of layout items, and find_layout_items takes every item of a
    page's reply: on a run that returns, page [j] contributes exactly as
    many elements as its reply has items, all tagged [j]. *)
Theorem C6_items_are_not_counted σ state path pages docs0 res σ' :
  state_at σ state path pages docs0 →
  find_layout_items w state σ = (Ok res, σ') →
  (∀ items, forallb DetectedLayoutItem_valid items = true →
            LayoutElements_valid (JObject [("layout_items", JArray items)]) = true)
  ∧ ∃ elss,
      documents_of σ' res = Some (concat elss)
      ∧ length elss = length pages
      ∧ ∀ j els, elss !! j = Some els →
          (∀ d, d ∈ els → page_number (metadata d) = j)
          ∧ ∃ t data items xs,
              answer w (requests σ) pages j = Some t
              ∧ loads t = Ok data
              ∧ getitem data "layout_items" = Ok items
              ∧ iter items = Ok xs
              ∧ length els = length xs.
Proof.
  intros (pl & dl & Hst & Hpl & _)%state_at_inv Hrun'. split; [done|].
  pose proof (find_layout_items_run w σ state path pl dl pages Hst Hpl) as Hrun.
  rewrite Hrun' in Hrun.
  destruct Hrun as (_ & elss & l & Hheap & _ & _ & Hne & Hlen & Hall).
  exists elss. split.
  { destruct σ' as [h' log']. cbn [heap] in Hheap. subst h'. by apply documents_of_result. }
  split; [done|]. intros j els Hj.
  destruct (Hall j els Hj) as (t & Ht & Hp). split.
  - intros d Hd. by eapply page_elements_page_number.
  - apply page_elements_Ok in Hp as (data0 & items & xs & Hload & Hitems & Hiter & Hr).
    exists t, data0, items, xs. repeat (split; [done|]).
    by apply rmap_Ok_lookup in Hr as [? _].
Qed.

(** C7: with two pages, the reply with one Table item for page 0 and the
    reply with no item for page 1, find_layout_items returns exactly one
    element: summary "Revenue table", element type "Table", page number
    0; page 1 contributes nothing. *)
Theorem C7_two_page_scenario σ state path p0 p1 docs0 :
  state_at σ state path [p0; p1] docs0 →
  answer w (requests σ) [p0; p1] 0 = Some revenue_reply →
  answer w (requests σ) [p0; p1] 1 = Some empty_reply →
  ∃ res σ', find_layout_items w state σ = (Ok res, σ')
    ∧ documents_of σ' res = Some [doc "Revenue table" 0 (JString "Table")]
    ∧ page_elements 1 empty_reply = Ok [].
Proof.
  intros Hst H0 H1.
  destruct (find_layout_items_all_pages w σ state path [p0; p1] docs0
              [[doc "Revenue table" 0 (JString "Table")]; []] Hst eq_refl)
    as (res & σ' & Hrun & _ & Hdocs & _).
  { intros [|[|j]] els; simpl; [intros [= <-]..|done].
    - exists revenue_reply. split; [done|]. by vm_compute.
    - exists empty_reply. split; [done|]. by vm_compute. }
  exists res, σ'. split; [done|]. split; [done|]. by vm_compute.
Qed.

(** Two runs of find_layout_items over the same pages, with a model whose
    reply depends on the request alone, end alike. *)
Lemma find_layout_items_deterministic σ1 st1 path1 docs1 σ2 st2 path2 docs2 pages :
  (∀ h1 h2 r, generate_content w h1 r = generate_content w h2 r) →
  state_at σ1 st1 path1 pages docs1 →
  state_at σ2 st2 path2 pages docs2 →
  match find_layout_items w st1 σ1, find_layout_items w st2 σ2 with
  | (Ok r1, σ1'), (Ok r2, σ2') =>
      ∃ docs, documents_of σ1' r1 = Some docs ∧ documents_of σ2' r2 = Some docs
  | (Err e1, _), (Err e2, _) => e1 = e2
  | _, _ => False
  end.
Proof.
  intros Hdet (pl1 & dl1 & Hs1 & Hp1 & _)%state_at_inv (pl2 & dl2 & Hs2 & Hp2 & _)%state_at_inv.
  assert (∀ j, answer w (requests σ1) pages j = answer w (requests σ2) pages j) as Hans.
  { intros j. unfold answer. destruct (pages !! j); [apply Hdet|done]. }
  pose proof (find_layout_items_run w σ1 st1 path1 pl1 dl1 pages Hs1 Hp1) as Hr1.
  pose proof (find_layout_items_run w σ2 st2 path2 pl2 dl2 pages Hs2 Hp2) as Hr2.
  destruct (find_layout_items w st1 σ1) as [[r1|e1] σ1'],
           (find_layout_items w st2 σ2) as [[r2|e2] σ2'].
  - destruct Hr1 as (_ & elss1 & l1 & Hh1 & _ & _ & Hne1 & Hlen1 & Hall1).
    destruct Hr2 as (_ & elss2 & l2 & Hh2 & _ & _ & Hne2 & Hlen2 & Hall2).
    assert (elss1 = elss2) as ->.
    { apply list_eq. intros j.
      destruct (elss1 !! j) as [a|] eqn:Ha, (elss2 !! j) as [b|] eqn:Hb; try done.
      - destruct (Hall1 _ _ Ha) as (t & Ht & Hp), (Hall2 _ _ Hb) as (t' & Ht' & Hp').
        rewrite Hans in Ht. congruence.
      - apply lookup_lt_Some in Ha. apply lookup_ge_None in Hb. lia.
      - apply lookup_lt_Some in Hb. apply lookup_ge_None in Ha. lia. }
    exists (concat elss2).
    destruct σ1' as [h1' ?], σ2' as [h2' ?]. cbn [heap] in Hh1, Hh2. subst h1' h2'.
    split; by apply documents_of_result.
  - destruct Hr1 as (_ & elss1 & l1 & _ & _ & _ & _ & Hlen1 & Hall1).
    destruct Hr2 as (k & _ & _ & Hk & _ & _ & _ & _ & Hat).
    destruct (lookup_lt_is_Some_2 elss1 k) as [els Hels]; [lia|].
    destruct (Hall1 _ _ Hels) as (t & Ht & Hp). rewrite Hans in Ht.
    destruct Hat as [[? _]|(t' & ? & ?)]; congruence.
  - destruct Hr2 as (_ & elss2 & l2 & _ & _ & _ & _ & Hlen2 & Hall2).
    destruct Hr1 as (k & _ & _ & Hk & _ & _ & _ & _ & Hat).
    destruct (lookup_lt_is_Some_2 elss2 k) as [els Hels]; [lia|].
    destruct (Hall2 _ _ Hels) as (t & Ht & Hp). rewrite <- Hans in Ht.
    destruct Hat as [[? _]|(t' & ? & ?)]; congruence.
  - destruct Hr1 as (k1 & _ & _ & Hk1 & _ & _ & _ & Hb1 & Hat1).
    destruct Hr2 as (k2 & _ & _ & Hk2 & _ & _ & _ & Hb2 & Hat2).
    destruct (lt_eq_lt_dec k1 k2) as [[Hlt|<-]|Hlt].
    + exfalso. destruct (Hb2 k1 Hlt) as (t & els & Ht & Hp). rewrite <- Hans in Ht.
      destruct Hat1 as [[? _]|(t' & ? & ?)]; congruence.
    + rewrite Hans in Hat1.
      destruct Hat1 as [[? ->]|(t & ? & ?)], Hat2 as [[? ->]|(t' & ? & ?)]; congruence.
    + exfalso. destruct (Hb1 k2 Hlt) as (t & els & Ht & Hp). rewrite Hans in Ht.
      destruct Hat2 as [[? _]|(t' & ? & ?)]; congruence.
Qed.

(** C8: with a model whose reply depends on the request alone, two runs
    of the driver on the same document end alike: the same error, or the
    same elements in the same order. *)
Theorem C8_two_runs_agree path σ :
  (∀ h1 h2 r, generate_content w h1 r = generate_content w h2 r) →
  match main w path σ with
  | (r1, σ1) =>
      match main w path σ1 with
      | (r2, σ2) =>
          match r1, r2 with
          | Ok res1, Ok res2 =>
              ∃ docs, documents_of σ1 res1 = Some docs ∧ documents_of σ2 res2 = Some docs
          | Err e1, Err e2 => e1 = e2
          | _, _ => False
          end
      end
  end.
Proof.
  intros Hdet.
  pose proof (main_run w path σ) as H1.
  destruct (main w path σ) as [r1 σ1] eqn:Hm1.
  pose proof (main_run w path σ1) as H2.
  destruct (main w path σ1) as [r2 σ2] eqn:Hm2.
  destruct (is_file w path).
  2:{ destruct H1 as (? & [= -> ->] & _), H2 as (? & [= -> ->] & _). done. }
  destruct (extract_images_from_pdf w path) as [[|x images]|].
  - destruct H1 as (? & [= -> ->] & _), H2 as (? & [= -> ->] & _). done.
  - destruct H1 as (st1 & σa & Hf1 & _ & Hst1), H2 as (st2 & σb & Hf2 & _ & Hst2).
    pose proof (find_layout_items_deterministic σa st1 path [] σb st2 path [] _ Hdet Hst1 Hst2)
      as Hboth.
    rewrite <- Hf1, <- Hf2 in Hboth. done.
  - destruct H1 as (? & [= -> ->] & _), H2 as (? & [= -> ->] & _). done.
Qed.

(** C9: neither method writes to the state object it is given, nor to
    any other object that existed before the call: path, pages and
    documents of the state read the same afterwards, whether the call
    returned or raised. What is returned is a new dict holding a new
    list; the state changes only by the caller's assignment. *)
Theorem C9_methods_leave_the_state_alone σ state :
  (match get_images w state σ with
   | (r, σ') => frame_of σ σ' state "pages_as_base64_png_images" r
   end)
  ∧ (match find_layout_items w state σ with
     | (r, σ') => frame_of σ σ' state "documents" r
     end)
  ∧ (∀ path pl dl pl', heap σ !! state = Some (State path pl dl) →
       ∃ σ', setattr_pages state pl' σ = (Ok (), σ')
             ∧ heap σ' !! state = Some (State path pl' dl)).
Proof.
  assert (∀ σ', heap σ ⊆ heap σ' →
            ∀ fields, read_state σ state = Some fields → read_state σ' state = Some fields)
    as Hread.
  { intros σ' Hsub [[path pages] docs] Hst. by apply (state_at_mono σ σ'). }
  split; [|split].
  - pose proof (get_images_frame w σ state) as Hf.
    destruct (get_images w state σ) as [r σ']. destruct Hf as (Hsub & _ & Hres).
    split; [done|]. split; [by apply Hread|done].
  - pose proof (find_layout_items_frame w σ state) as Hf.
    destruct (find_layout_items w state σ) as [r σ']. destruct Hf as (Hsub & Hres).
    split; [done|]. split; [by apply Hread|done].
  - intros path pl dl pl' Hst. eexists. split; [by eapply setattr_pages_eq|].
    cbn [heap]. apply lookup_insert_eq.
Qed.

(** C10: on a state with no pages find_layout_items returns an empty
    list of documents and issues no request. *)
Theorem C10_no_pages_no_requests σ state path docs0 :
  state_at σ state path [] docs0 →
  ∃ res σ', find_layout_items w state σ = (Ok res, σ')
    ∧ documents_of σ' res = Some []
    ∧ requests σ' = requests σ.
Proof.
  intros Hst.
  destruct (find_layout_items_all_pages w σ state path [] docs0 [] Hst eq_refl)
    as (res & σ' & Hrun & Hreq & Hdocs & _).
  { intros j els Hj. by rewrite lookup_nil in Hj. }
  exists res, σ'. simpl in Hreq. rewrite app_nil_r in Hreq. done.
Qed.

End Claims.

(** ** The decoder and the per-page step on sample texts *)

Example loads_revenue_reply :
  loads revenue_reply
  = Ok (JObject [("layout_items",
          JArray [JObject [("element_type", JString "Table");
                           ("summary", JString "Revenue table")]])]).
Proof. vm_compute. reflexivity. Qed.

Example loads_values :
  loads (text " [1, -2.5e+3, true, false, null, 'a\n\u00e9', {}, []] ")
  = Ok (JArray [JNumber "1"; JNumber "-2.5e+3"; JBool true; JBool false; JNull;
                JString (String "a" (String "010" (String "195" (String "169" ""))));
                JObject []; JArray []]).
Proof. vm_compute. reflexivity. Qed.

Example loads_last_duplicate_wins :
  loads (text "{'a':1,'b':2,'a':3}") = Ok (JObject [("a", JNumber "3"); ("b", JNumber "2")]).
Proof. vm_compute. reflexivity. Qed.

Example loads_rejects :
  Forall (λ t, loads (text t) = Err JSONDecodeError)
    [""; "[1,]"; "{'a':1,}"; "01"; "1."; "nul"; "[1 2]"; "{'a' 1}"; "{} {}"; "'abc";
     "{a:1}"; "[[]"; "-"; "+1"; "'\x'"; "Sorry, I cannot do that."].
Proof. repeat constructor. Qed.

Example page_elements_not_a_dict : page_elements 0 (text "[]") = Err TypeError.
Proof. vm_compute. reflexivity. Qed.

Example page_elements_no_layout_items :
  page_elements 0 (text "{}") = Err (KeyError "layout_items").
Proof. vm_compute. reflexivity. Qed.

Example page_elements_items_not_iterable :
  page_elements 0 (text "{'layout_items':null}") = Err TypeError.
Proof. vm_compute. reflexivity. Qed.

Example page_elements_items_empty_str : page_elements 0 (text "{'layout_items':''}") = Ok [].
Proof. vm_compute. reflexivity. Qed.

Example page_elements_items_str : page_elements 0 (text "{'layout_items':'ab'}") = Err TypeError.
Proof. vm_compute. reflexivity. Qed.

Example page_elements_summary_not_str :
  page_elements 0 (text "{'layout_items':[{'element_type':'Table','summary':5}]}")
  = Err ValidationError.
Proof. vm_compute. reflexivity. Qed.

Example page_elements_earlier_item_decides :
  page_elements 0 number_item_reply = Err TypeError.
Proof. vm_compute. reflexivity. Qed.

Example page_elements_no_summary :
  page_elements 3 no_summary_reply = Err (KeyError "summary").
Proof. vm_compute. reflexivity. Qed.

(** ** The claims on concrete runs *)

Lemma C1_witness :
  let σ := store_with two_pages in
  let σ' := (find_layout_items two_page_world 0 σ).2 in
  state_at σ 0 "docs.pdf" two_pages []
  ∧ ∃ docs, documents_of σ' 4 = Some docs ∧
      ∀ d, d ∈ docs →
        page_number (metadata d) < length two_pages
        ∧ ∃ p t els,
            two_pages !! page_number (metadata d) = Some p
            ∧ data (messages two_page_world p) = p
            ∧ answer two_page_world (requests σ) two_pages (page_number (metadata d)) = Some t
            ∧ page_elements (page_number (metadata d)) t = Ok els
            ∧ d ∈ els.
Proof.
  intros σ σ'. split; [reflexivity|].
  apply (C1_page_number_indexes_pages two_page_world σ 0 "docs.pdf" two_pages [] 4 σ').
  - reflexivity.
  - vm_compute. reflexivity.
Defined.



Lemma C3_witness :
  let σ := store_with [] in
  heap σ !! 0 = Some (State "docs.pdf" 1 2)
  ∧ requests (get_images two_page_world 0 σ).2 = requests σ
  ∧ pages_of (get_images two_page_world 0 σ).2 4 = Some two_pages
  ∧ ∃ e σ1, main (mock_world [] []) "docs.pdf" empty_store = (Err e, σ1)
            ∧ class_of e = InputError ∧ requests σ1 = [].
Proof.
  intros σ. split; [reflexivity|].
  pose proof (C3_get_images_input_errors two_page_world σ 0 "docs.pdf" 1 2 eq_refl) as [H _].
  pose proof (C3_get_images_input_errors (mock_world [] []) σ 0 "docs.pdf" 1 2 eq_refl)
    as [_ H'].
  destruct (get_images two_page_world 0 σ) as [r σ'] eqn:Hrun.
  destruct H as (Hreq & _ & _ & Hok).
  split; [exact Hreq|]. split.
  - vm_compute in Hrun. injection Hrun as <- <-. vm_compute. reflexivity.
  - apply H'. right. right. reflexivity.
Defined.

Lemma C4_witness :
  let σ := store_with two_pages in
  answer broken_world (requests σ) two_pages 1 = Some "Sorry, I cannot do that."
  ∧ loads "Sorry, I cannot do that." = Err JSONDecodeError
  ∧ ∃ e σ', find_layout_items broken_world 0 σ = (Err e, σ')
      ∧ class_of e = SchemaViolationError
      ∧ state_at σ' 0 "docs.pdf" two_pages []
      ∧ ((∀ j, j < 1 →
            ∃ t' els, answer broken_world (requests σ) two_pages j = Some t'
                      ∧ page_elements j t' = Ok els) →
         e = JSONDecodeError).
Proof.
  intros σ. split; [reflexivity|]. split; [vm_compute; reflexivity|].
  apply (C4_malformed_json_aborts broken_world σ 0 "docs.pdf" two_pages [] 1
           "Sorry, I cannot do that.").
  - reflexivity.
  - intros [|j] Hj; [vm_compute; discriminate|lia].
  - reflexivity.
  - vm_compute. reflexivity.
Defined.



(** C6 as stated fails: a reply with eleven items meets the declared
    schema, and find_layout_items returns eleven elements for the page. *)
Lemma C6_counterexample :
  let σ := store_with ["png:a"] in
  (∃ data, loads eleven_reply = Ok data ∧ LayoutElements_valid data = true)
  ∧ ∃ res σ' docs, find_layout_items (one_page_world eleven_reply) 0 σ = (Ok res, σ')
      ∧ documents_of σ' res = Some docs
      ∧ length docs = 11
      ∧ Forall (λ d, page_number (metadata d) = 0) docs.
Proof.
  intros σ. split.
  - destruct (loads eleven_reply) as [data0|e] eqn:Hload; vm_compute in Hload; [|discriminate].
    exists data0. split; [reflexivity|]. injection Hload as <-. vm_compute. reflexivity.
  - exists 4, (find_layout_items (one_page_world eleven_reply) 0 σ).2,
      ((λ n, doc n 0 (JString "Text-block"))
         <$> ["1"; "2"; "3"; "4"; "5"; "6"; "7"; "8"; "9"; "10"; "11"]).
    split; [vm_compute; reflexivity|]. split; [vm_compute; reflexivity|].
    split; [reflexivity|]. repeat constructor.
Qed.

Lemma C6_witness :
  let σ := store_with ["png:a"] in
  let σ' := (find_layout_items (one_page_world eleven_reply) 0 σ).2 in
  find_layout_items (one_page_world eleven_reply) 0 σ = (Ok 4, σ')
  ∧ ∃ elss,
      documents_of σ' 4 = Some (concat elss)
      ∧ length elss = 1
      ∧ ∀ j els, elss !! j = Some els →
          (∀ d, d ∈ els → page_number (metadata d) = j)
          ∧ ∃ t data items xs,
              answer (one_page_world eleven_reply) (requests σ) ["png:a"] j = Some t
              ∧ loads t = Ok data
              ∧ getitem data "layout_items" = Ok items
              ∧ iter items = Ok xs
              ∧ length els = length xs.
Proof.
  intros σ σ'.
  assert (find_layout_items (one_page_world eleven_reply) 0 σ = (Ok 4, σ')) as Hrun.
  { vm_compute. reflexivity. }
  split; [exact Hrun|].
  exact (proj2 (C6_items_are_not_counted (one_page_world eleven_reply) σ 0 "docs.pdf"
                  ["png:a"] [] 4 σ' eq_refl Hrun)).
Defined.

Lemma C7_witness :
  let σ := store_with two_pages in
  answer two_page_world (requests σ) two_pages 0 = Some revenue_reply
  ∧ answer two_page_world (requests σ) two_pages 1 = Some empty_reply
  ∧ ∃ res σ', find_layout_items two_page_world 0 σ = (Ok res, σ')
      ∧ documents_of σ' res = Some [doc "Revenue table" 0 (JString "Table")]
      ∧ page_elements 1 empty_reply = Ok [].
Proof.
  intros σ. split; [reflexivity|]. split; [reflexivity|].
  apply (C7_two_page_scenario two_page_world σ 0 "docs.pdf" "png:a" "png:b" []);
    reflexivity.
Defined.

Lemma C8_witness :
  (∀ h1 h2 r, generate_content two_page_world h1 r = generate_content two_page_world h2 r)
  ∧ match main two_page_world "docs.pdf" empty_store with
    | (r1, σ1) =>
        match main two_page_world "docs.pdf" σ1 with
        | (r2, σ2) =>
            match r1, r2 with
            | Ok res1, Ok res2 =>
                ∃ docs, documents_of σ1 res1 = Some docs ∧ documents_of σ2 res2 = Some docs
            | Err e1, Err e2 => e1 = e2
            | _, _ => False
            end
        end
    end.
Proof.
  split; [intros h1 h2 r; reflexivity|].
  apply (C8_two_runs_agree two_page_world "docs.pdf" empty_store).
  intros h1 h2 r. reflexivity.
Defined.

Lemma C10_witness :
  let σ := store_with [] in
  state_at σ 0 "docs.pdf" [] []
  ∧ ∃ res σ', find_layout_items two_page_world 0 σ = (Ok res, σ')
      ∧ documents_of σ' res = Some []
      ∧ requests σ' = requests σ.
Proof.
  intros σ. split; [reflexivity|].
  apply (C10_no_pages_no_requests two_page_world σ 0 "docs.pdf" []). reflexivity.
Defined.

(** ** Further properties of find_layout_items *)

Section Runs.
Context {Image : Type} (w : World Image).

(** The page that stops a run is the first one that cannot be processed,
    and the run ends with that page's error. *)
Lemma find_layout_items_first_failure σ state path pages docs0 k e :
  state_at σ state path pages docs0 →
  (∀ j, j < k →
     ∃ t els, answer w (requests σ) pages j = Some t ∧ page_elements j t = Ok els) →
  (k < length pages ∧ answer w (requests σ) pages k = None ∧ e = ModelError)
  ∨ (∃ t, answer w (requests σ) pages k = Some t ∧ page_elements k t = Err e) →
  ∃ σ', find_layout_items w state σ = (Err e, σ')
        ∧ requests σ' = requests σ ++ (messages w <$> take (S k) pages)
        ∧ state_at σ' state path pages docs0.
Proof.
  intros Hst Hparsed Hk.
  assert (k < length pages) as Hlt.
  { destruct Hk as [[? _]|(t & (p & Hp & _)%answer_Some & _)]; [done|].
    by eapply lookup_lt_Some. }
  destruct (find_layout_items w state σ) as [[res|e'] σ'] eqn:Hrun.
  - exfalso.
    destruct (state_at_inv σ state path pages docs0 Hst) as (pl & dl & Hs & Hpl & _).
    pose proof (find_layout_items_run w σ state path pl dl pages Hs Hpl) as Hr.
    rewrite Hrun in Hr. destruct Hr as (_ & elss & l & _ & _ & _ & _ & Hlen & Hall).
    destruct (lookup_lt_is_Some_2 elss k) as [els Hels]; [lia|].
    destruct (Hall k els Hels) as (t' & Ht' & Hp').
    destruct Hk as [(_ & ? & _)|(t & ? & ?)]; congruence.
  - destruct (find_layout_items_failure w σ state path pages docs0 e' σ' Hst Hrun)
      as (Hsub & k' & Hk' & Hreq & Hbefore & Hat).
    assert (k' = k) as ->.
    { destruct (lt_eq_lt_dec k' k) as [[Hlt'|?]|Hgt]; [exfalso|done|exfalso].
      - destruct (Hparsed k' Hlt') as (t & els & Ht & Hp).
        destruct Hat as [[? _]|(t' & ? & ?)]; congruence.
      - destruct (Hbefore k Hgt) as (t & els & Ht & Hp).
        destruct Hk as [(_ & ? & _)|(t' & ? & ?)]; congruence. }
    assert (e' = e) as ->.
    { destruct Hat as [[? ->]|(t & ? & ?)], Hk as [(_ & ? & ->)|(t' & ? & ?)]; congruence. }
    exists σ'. split; [done|]. split; [done|]. by eapply state_at_mono.
Qed.

(** X1: a run stops at the first page that cannot be processed. If the
    pages before [k] yield their elements and page [k] does not (the
    model call raises, or the reply cannot be turned into elements), the
    caller gets exactly the error of page [k]; requests were issued for
    the pages up to [k] and for none after it, and the state is as
    before. *)
Theorem X1_first_failure_decides σ state path pages docs0 k e :
  state_at σ state path pages docs0 →
  (∀ j, j < k →
     ∃ t els, answer w (requests σ) pages j = Some t ∧ page_elements j t = Ok els) →
  (k < length pages ∧ answer w (requests σ) pages k = None ∧ e = ModelError)
  ∨ (∃ t, answer w (requests σ) pages k = Some t ∧ page_elements k t = Err e) →
  ∃ σ', find_layout_items w state σ = (Err e, σ')
        ∧ requests σ' = requests σ ++ (messages w <$> take (S k) pages)
        ∧ state_at σ' state path pages docs0.
Proof. apply find_layout_items_first_failure. Qed.

Lemma tagged_lists_sorted (elss : list (list Document)) base :
  (∀ j els, elss !! j = Some els →
     ∀ d, d ∈ els → page_number (metadata d) = base + j) →
  StronglySorted le ((λ d, page_number (metadata d)) <$> concat elss)
  ∧ Forall (λ d, base ≤ page_number (metadata d)) (concat elss).
Proof.
  revert base. induction elss as [|els elss IH]; intros base Htag; simpl.
  - split; constructor.
  - destruct (IH (S base)) as [Hsorted Hge].
    { intros j els' Hj d Hd. rewrite (Htag (S j) els' Hj d Hd). lia. }
    assert (∀ d, d ∈ els → page_number (metadata d) = base) as Hhead.
    { intros d Hd. rewrite (Htag 0 els eq_refl d Hd). lia. }
    split.
    + rewrite fmap_app. apply StronglySorted_app_2; [|clear -Hhead|done].
      * intros n1 n2 (d1 & -> & Hd1)%list_elem_of_fmap (d2 & -> & Hd2)%list_elem_of_fmap.
        rewrite (Hhead d1 Hd1). rewrite Forall_forall in Hge.
        specialize (Hge d2 Hd2). lia.
      * induction els as [|d els IHels]; simpl; constructor.
        -- apply IHels. intros d' Hd'. apply Hhead. by right.
        -- apply Forall_forall. intros n (d' & -> & Hd')%list_elem_of_fmap.
           rewrite (Hhead d), (Hhead d'); [done|by right|by left].
    + apply Forall_app. split.
      * apply Forall_forall. intros d Hd. by rewrite (Hhead d Hd).
      * eapply Forall_impl; [exact Hge|]. intros d ?. simpl in *. lia.
Qed.

(** X2: the returned documents are ordered by page number: going through
    the list the page number never decreases. *)
Theorem X2_documents_ordered_by_page σ state path pages docs0 res σ' :
  state_at σ state path pages docs0 →
  find_layout_items w state σ = (Ok res, σ') →
  ∃ docs, documents_of σ' res = Some docs
          ∧ StronglySorted le ((λ d, page_number (metadata d)) <$> docs).
Proof.
  intros (pl & dl & Hst & Hpl & _)%state_at_inv Hrun'.
  pose proof (find_layout_items_run w σ state path pl dl pages Hst Hpl) as Hrun.
  rewrite Hrun' in Hrun.
  destruct Hrun as (_ & elss & l & Hheap & _ & _ & Hne & Hlen & Hall).
  exists (concat elss). split.
  { destruct σ' as [h' log']. cbn [heap] in Hheap. subst h'. by apply documents_of_result. }
  apply (tagged_lists_sorted elss 0). intros j els Hj d Hd.
  destruct (Hall j els Hj) as (t & _ & Hp).
  by rewrite (page_elements_page_number j t els d Hp Hd).
Qed.

Lemma valid_item_document i x :
  DetectedLayoutItem_valid x = true →
  ∃ s et, make_document i x = Ok (doc s i (JString et)) ∧ et ∈ element_types.
Proof.
  destruct x as [| | | | |d]; try done. unfold DetectedLayoutItem_valid, make_document.
  simpl. destruct (dict_get "element_type" d) as [[| | |et| |]|]; try done.
  destruct (dict_get "summary" d) as [[| | |s| |]|]; try done.
  intros Het%bool_decide_eq_true. by exists s, et.
Qed.

Lemma valid_items_documents i items :
  forallb DetectedLayoutItem_valid items = true →
  ∃ els, rmap (make_document i) items = Ok els
         ∧ length els = length items
         ∧ Forall (λ d, ∃ et, element_type (metadata d) = JString et ∧ et ∈ element_types) els.
Proof.
  induction items as [|x items IH]; simpl.
  - intros _. exists []. by repeat split.
  - intros [Hx Hitems]%andb_prop.
    destruct (valid_item_document i x Hx) as (s & et & -> & Het).
    destruct (IH Hitems) as (els & -> & Hlen & Hall). simpl.
    exists (doc s i (JString et) :: els). split; [done|]. split; [by rewrite <- Hlen|].
    constructor; [by exists et|done].
Qed.

Lemma conforming_page i t d items :
  loads t = Ok (JObject d) →
  dict_get "layout_items" d = Some (JArray items) →
  LayoutElements_valid (JObject d) = true →
  ∃ els, page_elements i t = Ok els
         ∧ length els = length items
         ∧ Forall (λ d, ∃ et, element_type (metadata d) = JString et ∧ et ∈ element_types) els.
Proof.
  intros Hload Hitems Hvalid. simpl in Hvalid. rewrite Hitems in Hvalid.
  destruct (valid_items_documents i items Hvalid) as (els & Hr & Hrest).
  exists els. split; [|done].
  unfold page_elements. rewrite Hload. simpl. by rewrite Hitems.
Qed.

(** X3: replies that conform to the declared schema and hold the
    [layout_items] key are always accepted. If every page's reply decodes
    to such a value, find_layout_items returns, and the element type of
    every returned document is one of the four literals. *)
Theorem X3_conforming_replies_are_accepted σ state path pages docs0 :
  state_at σ state path pages docs0 →
  (∀ j, j < length pages →
     ∃ t d items,
       answer w (requests σ) pages j = Some t
       ∧ loads t = Ok (JObject d)
       ∧ dict_get "layout_items" d = Some (JArray items)
       ∧ LayoutElements_valid (JObject d) = true) →
  ∃ res σ' docs,
    find_layout_items w state σ = (Ok res, σ')
    ∧ documents_of σ' res = Some docs
    ∧ Forall (λ d, ∃ et, element_type (metadata d) = JString et ∧ et ∈ element_types) docs.
Proof.
  intros Hst Hconf.
  destruct (find_layout_items w state σ) as [[res|e] σ'] eqn:Hrun.
  - destruct (state_at_inv σ state path pages docs0 Hst) as (pl & dl & Hs & Hpl & _).
    pose proof (find_layout_items_run w σ state path pl dl pages Hs Hpl) as Hr.
    rewrite Hrun in Hr. destruct Hr as (_ & elss & l & Hheap & _ & _ & Hne & Hlen & Hall).
    exists res, σ', (concat elss). split; [done|]. split.
    { destruct σ' as [h' log']. cbn [heap] in Hheap. subst h'. by apply documents_of_result. }
    apply Forall_forall. intros doc0 (j & els & Hj & Hd)%elem_of_concat.
    destruct (Hall j els Hj) as (t & Ht & Hp).
    destruct (Hconf j) as (t' & d & items & Ht' & Hload & Hitems & Hvalid).
    { rewrite <- Hlen. by eapply lookup_lt_Some. }
    destruct (conforming_page j t' d items Hload Hitems Hvalid) as (els' & Hp' & _ & Hin).
    assert (els' = els) as -> by congruence.
    rewrite Forall_forall in Hin. by apply Hin.
  - exfalso.
    destruct (find_layout_items_failure w σ state path pages docs0 e σ' Hst Hrun)
      as (_ & k & Hk & _ & _ & Hat).
    destruct (Hconf k Hk) as (t & d & items & Ht & Hload & Hitems & Hvalid).
    destruct (conforming_page k t d items Hload Hitems Hvalid) as (els & Hp & _).
    destruct Hat as [[? _]|(t' & ? & ?)]; congruence.
Qed.

(** X4: the [= []] default of [LayoutElements.layout_items] is not
    applied to replies. A reply that decodes to a dict without the
    [layout_items] key conforms to the declared schema, and yet stops the
    run with KeyError on that key. *)
Theorem X4_missing_layout_items_key σ state path pages docs0 k t d :
  state_at σ state path pages docs0 →
  (∀ j, j < k →
     ∃ t' els, answer w (requests σ) pages j = Some t' ∧ page_elements j t' = Ok els) →
  answer w (requests σ) pages k = Some t →
  loads t = Ok (JObject d) →
  dict_get "layout_items" d = None →
  LayoutElements_valid (JObject d) = true
  ∧ ∃ σ', find_layout_items w state σ = (Err (KeyError "layout_items"), σ')
          ∧ requests σ' = requests σ ++ (messages w <$> take (S k) pages).
Proof.
  intros Hst Hparsed Hk Hload Hkey. split; [simpl; by rewrite Hkey|].
  destruct (find_layout_items_first_failure σ state path pages docs0 k
              (KeyError "layout_items") Hst Hparsed) as (σ' & Hrun & Hreq & _).
  { right. exists t. split; [done|]. unfold page_elements. rewrite Hload. simpl.
    by rewrite Hkey. }
  by exists σ'.
Qed.

(** X5: a reply whose [layout_items] is not a list is not rejected as
    such; what happens follows from iterating the value. An empty dict
    and an empty str give no elements and no error; a non-empty dict or
    str gives TypeError (its keys or characters are not subscriptable by
    a str); None, a bool or a number gives TypeError (not iterable); and
    a reply that is not a dict gives TypeError before any key is read. *)
Theorem X5_layout_items_not_a_list i t data :
  loads t = Ok data →
  match data with
  | JObject d =>
      ∀ m, dict_get "layout_items" d = Some m →
        match m with
        | JArray items => page_elements i t = rmap (make_document i) items
        | JObject [] => page_elements i t = Ok []
        | JObject (_ :: _) => page_elements i t = Err TypeError
        | JString s =>
            page_elements i t
            = match characters s with [] => Ok [] | _ :: _ => Err TypeError end
        | JNull | JBool _ | JNumber _ => page_elements i t = Err TypeError
        end
  | _ => page_elements i t = Err TypeError
  end.
Proof.
  intros Hload. unfold page_elements. rewrite Hload.
  destruct data as [| | | | |d]; try done.
  intros m Hm. simpl. rewrite Hm. simpl.
  destruct m as [| | |s|items|[|[k v] m]]; try done.
  simpl. by destruct (characters s).
Qed.

(** X6: within a page the first item that cannot be made into a document
    decides the error: the items after it are not looked at, and the run
    ends with that item's error. *)
Theorem X6_first_bad_item_decides σ state path pages docs0 k t d good bad rest e :
  state_at σ state path pages docs0 →
  (∀ j, j < k →
     ∃ t' els, answer w (requests σ) pages j = Some t' ∧ page_elements j t' = Ok els) →
  answer w (requests σ) pages k = Some t →
  loads t = Ok (JObject d) →
  dict_get "layout_items" d = Some (JArray (good ++ bad :: rest)) →
  Forall (λ x, ∃ doc0, make_document k x = Ok doc0) good →
  make_document k bad = Err e →
  ∃ σ', find_layout_items w state σ = (Err e, σ')
        ∧ requests σ' = requests σ ++ (messages w <$> take (S k) pages).
Proof.
  intros Hst Hparsed Hk Hload Hitems Hgood Hbad.
  destruct (find_layout_items_first_failure σ state path pages docs0 k e Hst Hparsed)
    as (σ' & Hrun & Hreq & _).
  { right. exists t. split; [done|]. unfold page_elements. rewrite Hload. simpl.
    rewrite Hitems. simpl. by apply rmap_first_Err. }
  by exists σ'.
Qed.

End Runs.

(** ** Further properties of get_images and of the driver *)

Section Driver.
Context {Image : Type} (w : World Image).

(** X7: the two steps composed. When the file exists, the rasterizer
    gives at least one image and every reply yields its elements, the
    driver returns the per-page lists joined in page order, and the
    requests it has issued are one per image, in order, each carrying the
    encoded image. *)
Theorem X7_driver_end_to_end path σ images elss :
  is_file w path = true →
  extract_images_from_pdf w path = Some images →
  images ≠ [] →
  length elss = length images →
  (∀ j els, elss !! j = Some els →
     ∃ t, answer w (requests σ) (pil_image_to_base64_png w <$> images) j = Some t
          ∧ page_elements j t = Ok els) →
  ∃ res σ', main w path σ = (Ok res, σ')
    ∧ documents_of σ' res = Some (concat elss)
    ∧ requests σ'
      = requests σ ++ ((λ x, messages w (pil_image_to_base64_png w x)) <$> images).
Proof.
  intros Hfile Hextract Hne Hlen Hall.
  pose proof (main_run w path σ) as Hmain. rewrite Hfile, Hextract in Hmain.
  destruct images as [|x images]; [done|].
  destruct Hmain as (st & σ0 & Hmain & Hreq0 & Hst).
  rewrite <- Hreq0 in Hall.
  destruct (find_layout_items_all_pages w σ0 st path _ [] elss Hst) as
    (res & σ' & Hrun & Hreq & Hdocs & _); [by rewrite length_fmap|done|].
  exists res, σ'. split; [by rewrite Hmain|]. split; [done|].
  by rewrite Hreq, Hreq0, <- list_fmap_compose.
Qed.

(** X8: what the driver leaves behind. It writes to no object that
    existed before; it creates one state object, which at the end holds
    the path, an empty [documents] list (the elements are only in the
    returned dict, they are not stored back) and, when get_images
    succeeded, as its page list the very list object that the dict
    returned by get_images holds. This is so whether the layout step
    returned or raised. *)
Theorem X8_driver_state_after_run path σ :
  match main w path σ with
  | (r, σ') =>
      heap σ ⊆ heap σ'
      ∧ ∃ state pl dl,
          heap σ !! state = None
          ∧ heap σ' !! state = Some (State path pl dl)
          ∧ doc_list σ' dl = Some []
          ∧ (if is_file w path then
               match extract_images_from_pdf w path with
               | Some (x :: images) =>
                   str_list σ' pl = Some (pil_image_to_base64_png w <$> x :: images)
                   ∧ ∃ r1, heap σ' !! r1 = Some (Dict [("pages_as_base64_png_images", pl)])
               | _ => str_list σ' pl = Some []
               end
             else str_list σ' pl = Some [])
  end.
Proof.
  set (p0 := fresh (dom (heap σ))).
  set (h1 := <[p0 := StrList []]> (heap σ)).
  set (d0 := fresh (dom h1)).
  set (h2 := <[d0 := DocList []]> h1).
  set (st := fresh (dom h2)).
  set (h3 := <[st := State path p0 d0]> h2).
  set (σ3 := {| heap := h3; requests := requests σ |}).
  assert (heap σ !! p0 = None) as Hp0 by apply fresh_not_in_heap.
  assert (h1 !! d0 = None) as Hd0 by apply fresh_not_in_heap.
  assert (h2 !! st = None) as Hst2 by apply fresh_not_in_heap.
  assert (heap σ ⊆ h1) as Hsub1 by (by apply insert_subseteq).
  assert (h1 ⊆ h2) as Hsub2 by (by apply insert_subseteq).
  assert (h2 ⊆ h3) as Hsub3 by (by apply insert_subseteq).
  assert (heap σ ⊆ h2) as Hsub12 by (by transitivity h1).
  assert (heap σ ⊆ h3) as Hsub by (by transitivity h2).
  assert (heap σ !! st = None) as Hstσ.
  { destruct (heap σ !! st) as [o|] eqn:Ho; [|done].
    assert (h2 !! st = Some o) as Ho'; [|congruence].
    by eapply lookup_weaken. }
  assert (h1 !! p0 = Some (StrList [])) as Hp1 by apply lookup_insert_eq.
  assert (h2 !! d0 = Some (DocList [])) as Hd2 by apply lookup_insert_eq.
  assert (h3 !! st = Some (State path p0 d0)) as Hst by apply lookup_insert_eq.
  assert (h3 !! p0 = Some (StrList [])) as Hp3.
  { eapply lookup_weaken; [exact Hp1|]. by transitivity h2. }
  assert (h3 !! d0 = Some (DocList [])) as Hd3 by (by eapply lookup_weaken).
  assert (main w path σ =
          match get_images w st σ3 with
          | (Ok r1, σ') =>
              (pl <- dict_getitem r1 "pages_as_base64_png_images" ;;
               setattr_pages st pl ;; find_layout_items w st) σ'
          | (Err e, σ') => (Err e, σ')
          end) as Hmain by reflexivity.
  rewrite (get_images_run w σ3 st path p0 d0 Hst) in Hmain.
  assert (heap σ ⊆ heap σ3
          ∧ ∃ state pl dl, heap σ !! state = None
              ∧ heap σ3 !! state = Some (State path pl dl)
              ∧ doc_list σ3 dl = Some [] ∧ str_list σ3 pl = Some []) as Hfailed.
  { split; [done|]. exists st, p0, d0. unfold doc_list, str_list. cbn [heap σ3].
    by rewrite Hd3, Hp3. }
  destruct (is_file w path); [|by rewrite Hmain].
  destruct (extract_images_from_pdf w path) as [[|x images]|]; try by rewrite Hmain.
  clear Hfailed. rewrite Hmain. clear Hmain. cbn zeta. cbn [heap requests σ3].
  set (pages := pil_image_to_base64_png w <$> x :: images).
  set (l := fresh (dom h3)).
  set (h4 := <[l := StrList pages]> h3).
  set (r1 := fresh (dom h4)).
  set (h5 := <[r1 := Dict [("pages_as_base64_png_images", l)]]> h4).
  assert (h3 !! l = None) as Hl3 by apply fresh_not_in_heap.
  assert (h4 !! r1 = None) as Hr4 by apply fresh_not_in_heap.
  assert (h3 ⊆ h4) as Hsub4 by (by apply insert_subseteq).
  assert (h4 ⊆ h5) as Hsub5 by (by apply insert_subseteq).
  assert (h3 ⊆ h5) as Hsub35 by (by transitivity h4).
  assert (h5 !! st = Some (State path p0 d0)) as Hst5 by (by eapply lookup_weaken).
  assert (h5 !! d0 = Some (DocList [])) as Hd5 by (by eapply lookup_weaken).
  assert (h5 !! l = Some (StrList pages)) as Hl5.
  { eapply lookup_weaken; [apply lookup_insert_eq|done]. }
  assert (h5 !! r1 = Some (Dict [("pages_as_base64_png_images", l)])) as Hr5
    by apply lookup_insert_eq.
  assert (st ≠ d0) as Hne1 by (intros Heq; rewrite Heq in Hst5; congruence).
  assert (st ≠ l) as Hne2 by (intros Heq; rewrite Heq in Hst5; congruence).
  assert (st ≠ r1) as Hne3 by (intros Heq; rewrite Heq in Hst5; congruence).
  erewrite bind_ok; [|apply dict_getitem_eq; cbn [heap]; exact Hr5].
  erewrite bind_ok; [|eapply setattr_pages_eq; cbn [heap]; exact Hst5].
  cbn [heap requests].
  set (σ6 := {| heap := <[st := State path l d0]> h5; requests := requests σ |}).
  pose proof (find_layout_items_frame w σ6 st) as Hframe.
  destruct (find_layout_items w st σ6) as [r σ'].
  destruct Hframe as [Hsub6 _]. cbn [heap σ6] in Hsub6.
  split.
  - etrans; [|exact Hsub6]. apply insert_subseteq_r; [done|].
    by transitivity h3.
  - exists st, l, d0. split; [done|]. split.
    { eapply lookup_weaken; [apply lookup_insert_eq|done]. }
    unfold doc_list, str_list.
    rewrite (lookup_weaken _ _ d0 (DocList []) (eq_trans (lookup_insert_ne _ _ _ _ Hne1) Hd5) Hsub6).
    rewrite (lookup_weaken _ _ l (StrList pages) (eq_trans (lookup_insert_ne _ _ _ _ Hne2) Hl5) Hsub6).
    split; [done|]. split; [done|]. exists r1.
    eapply lookup_weaken; [|exact Hsub6]. by rewrite lookup_insert_ne.
Qed.

(** X9: when get_images raises it has changed nothing: no object was
    created and no request was issued; the store is the one it was
    given. *)
Theorem X9_get_images_failure_changes_nothing σ state e σ' :
  get_images w state σ = (Err e, σ') → σ' = σ.
Proof.
  destruct (heap σ !! state) as [[| | |path pl dl]|] eqn:Hst;
    try (unfold get_images, bind at 1, attr_document_path, bind, deref; rewrite Hst;
         by intros [= _ <-]).
  rewrite (get_images_run w σ state path pl dl Hst).
  destruct (is_file w path); [|by intros [= _ <-]].
  destruct (extract_images_from_pdf w path) as [[|x images]|]; by intros [= _ <-].
Qed.

End Driver.

(** ** The further properties on concrete runs *)

Lemma X1_witness :
  let σ := store_with two_pages in
  state_at σ 0 "docs.pdf" two_pages []
  ∧ answer silent_world (requests σ) two_pages 1 = None
  ∧ ∃ σ', find_layout_items silent_world 0 σ = (Err ModelError, σ')
          ∧ requests σ' = requests σ ++ (messages silent_world <$> take 2 two_pages)
          ∧ state_at σ' 0 "docs.pdf" two_pages [].
Proof.
  intros σ. split; [reflexivity|]. split; [reflexivity|].
  apply (X1_first_failure_decides silent_world σ 0 "docs.pdf" two_pages [] 1 ModelError).
  - reflexivity.
  - intros [|j] Hj; [|lia].
    exists revenue_reply, [doc "Revenue table" 0 (JString "Table")].
    split; vm_compute; reflexivity.
  - left. split; [simpl; lia|]. split; reflexivity.
Defined.

Lemma X2_witness :
  let σ := store_with two_pages in
  let σ' := (find_layout_items ordered_world 0 σ).2 in
  find_layout_items ordered_world 0 σ = (Ok 4, σ')
  ∧ documents_of σ' 4
    = Some [doc "first" 0 (JString "Figure"); doc "second" 0 (JString "Table");
            doc "Revenue table" 1 (JString "Table")]
  ∧ ∃ docs, documents_of σ' 4 = Some docs
            ∧ StronglySorted le ((λ d, page_number (metadata d)) <$> docs).
Proof.
  intros σ σ'.
  assert (find_layout_items ordered_world 0 σ = (Ok 4, σ')) as Hrun.
  { vm_compute. reflexivity. }
  split; [exact Hrun|]. split; [vm_compute; reflexivity|].
  exact (X2_documents_ordered_by_page ordered_world σ 0 "docs.pdf" two_pages [] 4 σ'
           eq_refl Hrun).
Defined.

Lemma X3_witness :
  let σ := store_with two_pages in
  state_at σ 0 "docs.pdf" two_pages []
  ∧ ∃ res σ' docs,
      find_layout_items two_page_world 0 σ = (Ok res, σ')
      ∧ documents_of σ' res = Some docs
      ∧ Forall (λ d, ∃ et, element_type (metadata d) = JString et ∧ et ∈ element_types) docs.
Proof.
  intros σ. split; [reflexivity|].
  apply (X3_conforming_replies_are_accepted two_page_world σ 0 "docs.pdf" two_pages []).
  - reflexivity.
  - intros [|[|j]] Hj; [| |simpl in Hj; lia].
    + exists revenue_reply,
        [("layout_items",
          JArray [JObject [("element_type", JString "Table");
                           ("summary", JString "Revenue table")]])],
        [JObject [("element_type", JString "Table"); ("summary", JString "Revenue table")]].
      repeat split; vm_compute; reflexivity.
    + exists empty_reply, [("layout_items", JArray [])], [].
      repeat split; vm_compute; reflexivity.
Defined.

Lemma X4_witness :
  let σ := store_with ["png:a"] in
  loads (text "{}") = Ok (JObject [])
  ∧ LayoutElements_valid (JObject []) = true
  ∧ ∃ σ', find_layout_items (one_page_world (text "{}")) 0 σ
          = (Err (KeyError "layout_items"), σ')
          ∧ requests σ'
            = requests σ ++ (messages (one_page_world (text "{}")) <$> take 1 ["png:a"]).
Proof.
  intros σ. split; [vm_compute; reflexivity|].
  apply (X4_missing_layout_items_key (one_page_world (text "{}")) σ 0 "docs.pdf"
           ["png:a"] [] 0 (text "{}") []).
  - reflexivity.
  - intros j Hj. lia.
  - reflexivity.
  - vm_compute. reflexivity.
  - reflexivity.
Defined.

Lemma X5_witness :
  loads (text "{'layout_items':{}}") = Ok (JObject [("layout_items", JObject [])])
  ∧ page_elements 7 (text "{'layout_items':{}}") = Ok []
  ∧ loads (text "{'layout_items':{'a':1}}")
    = Ok (JObject [("layout_items", JObject [("a", JNumber "1")])])
  ∧ page_elements 7 (text "{'layout_items':{'a':1}}") = Err TypeError.
Proof.
  assert (loads (text "{'layout_items':{}}") = Ok (JObject [("layout_items", JObject [])]))
    as H1 by (vm_compute; reflexivity).
  assert (loads (text "{'layout_items':{'a':1}}")
          = Ok (JObject [("layout_items", JObject [("a", JNumber "1")])]))
    as H2 by (vm_compute; reflexivity).
  split; [exact H1|]. split.
  - exact (X5_layout_items_not_a_list 7 _ _ H1 (JObject []) eq_refl).
  - split; [exact H2|].
    exact (X5_layout_items_not_a_list 7 _ _ H2 (JObject [("a", JNumber "1")]) eq_refl).
Defined.

Lemma X6_witness :
  let σ := store_with ["png:a"] in
  make_document 0 (JObject [("element_type", JString "Table")]) = Err (KeyError "summary")
  ∧ ∃ σ', find_layout_items (one_page_world no_summary_reply) 0 σ
          = (Err (KeyError "summary"), σ')
          ∧ requests σ'
            = requests σ ++ (messages (one_page_world no_summary_reply) <$> take 1 ["png:a"]).
Proof.
  intros σ. split; [reflexivity|].
  apply (X6_first_bad_item_decides (one_page_world no_summary_reply) σ 0 "docs.pdf"
           ["png:a"] [] 0 no_summary_reply
           [("layout_items",
             JArray [JObject [("element_type", JString "Text-block"); ("summary", JString "a")];
                     JObject [("element_type", JString "Table")]])]
           [JObject [("element_type", JString "Text-block"); ("summary", JString "a")]]
           (JObject [("element_type", JString "Table")]) []).
  - reflexivity.
  - intros j Hj. lia.
  - reflexivity.
  - vm_compute. reflexivity.
  - reflexivity.
  - constructor; [|constructor]. eexists. reflexivity.
  - reflexivity.
Defined.

Lemma X7_witness :
  is_file two_page_world "docs.pdf" = true
  ∧ extract_images_from_pdf two_page_world "docs.pdf" = Some ["a"; "b"]
  ∧ ∃ res σ', main two_page_world "docs.pdf" empty_store = (Ok res, σ')
      ∧ documents_of σ' res = Some (concat [[doc "Revenue table" 0 (JString "Table")]; []])
      ∧ requests σ'
        = requests empty_store
          ++ ((λ x, messages two_page_world (pil_image_to_base64_png two_page_world x))
                <$> ["a"; "b"]).
Proof.
  split; [reflexivity|]. split; [reflexivity|].
  apply (X7_driver_end_to_end two_page_world "docs.pdf" empty_store ["a"; "b"]
           [[doc "Revenue table" 0 (JString "Table")]; []]).
  - reflexivity.
  - reflexivity.
  - discriminate.
  - reflexivity.
  - intros [|[|j]] els; simpl; [intros [= <-]..|discriminate].
    + exists revenue_reply. split; vm_compute; reflexivity.
    + exists empty_reply. split; vm_compute; reflexivity.
Defined.

Lemma X9_witness :
  let σ := store_with [] in
  (get_images (mock_world [] []) 0 σ).1 = Err (AssertionError "No images extracted")
  ∧ (get_images (mock_world [] []) 0 σ).2 = σ.
Proof.
  intros σ. split; [reflexivity|].
  apply (X9_get_images_failure_changes_nothing (mock_world [] []) σ 0
           (AssertionError "No images extracted")).
  vm_compute. reflexivity.
Defined.
